(** * WiZ light adapter: a shallow embedding of
      homeassistant/components/wiz_light/light.py

    The adapter mirrors the state of a network bulb in a [WizBulb] object and
    turns user requests into one command for the device client.  The device
    client (pywizlight) and the colour helpers are not part of the adapter:
    the outcome of each client call is an input of the model ([Responses]),
    and the helpers are the fields of the class [Externals].

    Python exceptions are modelled by an error monad over the adapter's
    world (the object and the trace of its client calls and log records): a
    raise keeps every assignment done before it, as in Python. *)

From Stdlib Require Import ZArith List String Bool Lia.
Import ListNotations.
Local Open Scope string_scope.
Local Open Scope Z_scope.
Local Open Scope list_scope.

(** ** Exceptions and results *)

Inductive exn : Type :=
| WizLightTimeOutError
| WizLightConnectionError
| WizLightNotKnownBulb
| TypeError
| ValueError
| AttributeError
| IndexError
| KeyError
| ZeroDivisionError.

Inductive result (A : Type) : Type :=
| Ok (a : A)
| Raise (e : exn).
Arguments Ok {A} a.
Arguments Raise {A} e.

Definition is_raise {A} (r : result A) : bool :=
  match r with Ok _ => false | Raise _ => true end.

(** A client answer that the poll cycle survives: a value or a timeout. *)
Definition ok_or_timeout {A} (r : result A) : bool :=
  match r with
  | Ok _ => true
  | Raise WizLightTimeOutError => true
  | Raise _ => false
  end.

(** ** Values reported by the device *)

(** A value as the status object hands it out: [None], an [int], or an object
    on which [int()] raises (a list, a dict, ...). *)
Inductive pyval : Type :=
| PyNone
| PyInt (z : Z)
| PyObject.

(** Python's [int(v)]. *)
Definition py_int (v : pyval) : result Z :=
  match v with
  | PyInt z => Ok z
  | PyNone => Raise TypeError
  | PyObject => Raise TypeError
  end.

Definition RGB : Type := (Z * Z * Z)%type.

(** The parsed status of the bulb ([self._light.state]), read through its
    getters.  A getter is a method of the client: it returns a value or
    raises (a key missing in the answer of the bulb, a value it cannot
    convert); called twice on one status object it answers the same. *)
Record PilotParser : Type := {
  get_brightness : result pyval;
  get_colortemp : result (option Z);
  get_rgb : result (option (option Z * option Z * option Z));
  get_scene : result (option string)
}.

(** The client handle ([self._light]). *)
Record wizlight : Type := {
  ip : string;
  state : option PilotParser;
  status : option bool
}.

Record Features : Type := {
  brightness : bool;
  color : bool;
  effect : bool;
  color_tmp : bool
}.

Record KelvinRange : Type := {
  kelvin_min : Z;
  kelvin_max : Z
}.

(** The capability descriptor.  The adapter reads [features] and
    [kelvin_range] under [except WizLightNotKnownBulb], so both reads can
    raise. *)
Record BulbType : Type := {
  name : string;
  features : result Features;
  kelvin_range : result KelvinRange
}.

(** The command object: the keyword arguments [PilotBuilder] was built
    from. *)
Record PilotBuilder : Type := {
  pilot_rgb : option RGB;
  pilot_brightness : option Z;
  pilot_colortemp : option Z;
  pilot_scene : option Z
}.

(** [PilotBuilder()] *)
Definition PilotBuilder_empty : PilotBuilder :=
  {| pilot_rgb := None; pilot_brightness := None;
     pilot_colortemp := None; pilot_scene := None |}.

(** ** Trace: client calls and log records *)

Inductive ClientCall : Type :=
| CallUpdateState
| CallGetBulbtype
| CallGetMac
| CallTurnOn (pilot : PilotBuilder)
| CallTurnOff.

Inductive LogLevel : Type := DEBUG | INFO | ERROR.

(** A log record keeps the format string, or the exception for
    [_LOGGER.x(ex)]; the arguments of the format are not kept. *)
Inductive LogMsg : Type :=
| Template (s : string)
| ExnMsg (e : exn).

Inductive Event : Type :=
| Call (c : ClientCall)
| Log (lvl : LogLevel) (msg : LogMsg).

Fixpoint calls_of (tr : list Event) : list ClientCall :=
  match tr with
  | [] => []
  | Call c :: tr' => c :: calls_of tr'
  | Log _ _ :: tr' => calls_of tr'
  end.

Fixpoint errors_of (tr : list Event) : list LogMsg :=
  match tr with
  | [] => []
  | Log ERROR m :: tr' => m :: errors_of tr'
  | _ :: tr' => errors_of tr'
  end.

(** What the device client answers to each call of one poll cycle or one
    command.  [r_updateState] gives the new [state] and [status] of the
    handle. *)
Record Responses : Type := {
  r_updateState : result (option PilotParser * option bool);
  r_get_bulbtype : result BulbType;
  r_getMac : result (option string);
  r_turn_on : PilotBuilder -> result unit;
  r_turn_off : result unit
}.

(** ** Colour temperature conversion *)

(** Modelled from the spec: [homeassistant.util.color] is not among the
    sources; the glossary gives mired as 10^6 / kelvin.  The quotient is
    floored, and a zero divisor raises as Python's division does. *)
Definition color_temperature_kelvin_to_mired (kelvin : Z) : result Z :=
  if kelvin =? 0 then Raise ZeroDivisionError else Ok (1000000 / kelvin).

(** Modelled from the spec: the reciprocal conversion, 10^6 / mired. *)
Definition color_temperature_mired_to_kelvin (mired : Z) : result Z :=
  if mired =? 0 then Raise ZeroDivisionError else Ok (1000000 / mired).

(** ** External collaborators *)

(** The feature bits of the light platform, the RGB/HS helpers (which work on
    floats, kept abstract) and the scene table of the client. *)
Class Externals : Type := {
  float : Type;
  SUPPORT_BRIGHTNESS : Z;
  SUPPORT_COLOR : Z;
  SUPPORT_COLOR_TEMP : Z;
  SUPPORT_EFFECT : Z;
  color_hs_to_RGB : float -> float -> RGB;
  color_RGB_to_hs : Z -> option Z -> option Z -> result (option (float * float));
  SCENES : list (Z * string);
  get_id_from_scene_name : string -> result Z;
  (** [PilotBuilder(rgb=, brightness=, colortemp=, scene=)] checks its
      arguments: [Some e] when the constructor raises [e] for them. *)
  PilotBuilder_raises : option RGB -> option Z -> option Z -> option Z -> option exn
}.

Section Adapter.
Context {ext : Externals}.

Definition SUPPORT_FEATURES_RGB : Z :=
  Z.lor (Z.lor (Z.lor SUPPORT_BRIGHTNESS SUPPORT_COLOR) SUPPORT_COLOR_TEMP)
        SUPPORT_EFFECT.

(** ** The entity *)

Record WizBulb : Type := {
  _light : wizlight;
  _state : option bool;
  _brightness : option Z;
  _name : string;
  _rgb_color : option RGB;
  _temperature : option Z;
  _hscolor : option (float * float);
  _available : option bool;
  _effect : option string;
  _scenes : list string;
  _bulbtype : option BulbType;
  _mac : option string
}.

(** [WizBulb.__init__] *)
Definition WizBulb_init (light : wizlight) (nm : string) : WizBulb :=
  {| _light := light; _state := None; _brightness := None; _name := nm;
     _rgb_color := None; _temperature := None; _hscolor := None;
     _available := None; _effect := None; _scenes := [];
     _bulbtype := None; _mac := None |}.

Definition set_light (s : option PilotParser * option bool) (b : WizBulb) : WizBulb :=
  {| _light := {| ip := ip (_light b); state := fst s; status := snd s |};
     _state := _state b; _brightness := _brightness b; _name := _name b;
     _rgb_color := _rgb_color b; _temperature := _temperature b;
     _hscolor := _hscolor b; _available := _available b;
     _effect := _effect b; _scenes := _scenes b;
     _bulbtype := _bulbtype b; _mac := _mac b |}.

Definition set_state (v : option bool) (b : WizBulb) : WizBulb :=
  {| _light := _light b; _state := v; _brightness := _brightness b;
     _name := _name b; _rgb_color := _rgb_color b;
     _temperature := _temperature b; _hscolor := _hscolor b;
     _available := _available b; _effect := _effect b;
     _scenes := _scenes b; _bulbtype := _bulbtype b; _mac := _mac b |}.

Definition set_available (v : option bool) (b : WizBulb) : WizBulb :=
  {| _light := _light b; _state := _state b; _brightness := _brightness b;
     _name := _name b; _rgb_color := _rgb_color b;
     _temperature := _temperature b; _hscolor := _hscolor b;
     _available := v; _effect := _effect b;
     _scenes := _scenes b; _bulbtype := _bulbtype b; _mac := _mac b |}.

Definition set_brightness (v : option Z) (b : WizBulb) : WizBulb :=
  {| _light := _light b; _state := _state b; _brightness := v;
     _name := _name b; _rgb_color := _rgb_color b;
     _temperature := _temperature b; _hscolor := _hscolor b;
     _available := _available b; _effect := _effect b;
     _scenes := _scenes b; _bulbtype := _bulbtype b; _mac := _mac b |}.

Definition set_temperature (v : option Z) (b : WizBulb) : WizBulb :=
  {| _light := _light b; _state := _state b; _brightness := _brightness b;
     _name := _name b; _rgb_color := _rgb_color b;
     _temperature := v; _hscolor := _hscolor b;
     _available := _available b; _effect := _effect b;
     _scenes := _scenes b; _bulbtype := _bulbtype b; _mac := _mac b |}.

Definition set_hscolor (v : option (float * float)) (b : WizBulb) : WizBulb :=
  {| _light := _light b; _state := _state b; _brightness := _brightness b;
     _name := _name b; _rgb_color := _rgb_color b;
     _temperature := _temperature b; _hscolor := v;
     _available := _available b; _effect := _effect b;
     _scenes := _scenes b; _bulbtype := _bulbtype b; _mac := _mac b |}.

Definition set_effect (v : option string) (b : WizBulb) : WizBulb :=
  {| _light := _light b; _state := _state b; _brightness := _brightness b;
     _name := _name b; _rgb_color := _rgb_color b;
     _temperature := _temperature b; _hscolor := _hscolor b;
     _available := _available b; _effect := v;
     _scenes := _scenes b; _bulbtype := _bulbtype b; _mac := _mac b |}.

Definition set_scenes (v : list string) (b : WizBulb) : WizBulb :=
  {| _light := _light b; _state := _state b; _brightness := _brightness b;
     _name := _name b; _rgb_color := _rgb_color b;
     _temperature := _temperature b; _hscolor := _hscolor b;
     _available := _available b; _effect := _effect b;
     _scenes := v; _bulbtype := _bulbtype b; _mac := _mac b |}.

Definition set_bulbtype (v : option BulbType) (b : WizBulb) : WizBulb :=
  {| _light := _light b; _state := _state b; _brightness := _brightness b;
     _name := _name b; _rgb_color := _rgb_color b;
     _temperature := _temperature b; _hscolor := _hscolor b;
     _available := _available b; _effect := _effect b;
     _scenes := _scenes b; _bulbtype := v; _mac := _mac b |}.

Definition set_mac (v : option string) (b : WizBulb) : WizBulb :=
  {| _light := _light b; _state := _state b; _brightness := _brightness b;
     _name := _name b; _rgb_color := _rgb_color b;
     _temperature := _temperature b; _hscolor := _hscolor b;
     _available := _available b; _effect := _effect b;
     _scenes := _scenes b; _bulbtype := _bulbtype b; _mac := v |}.

(** ** The monad of the adapter's methods *)

Record World : Type := {
  self : WizBulb;
  trace : list Event
}.

Definition M (A : Type) : Type := World -> result A * World.

Definition ret {A} (a : A) : M A := fun w => (Ok a, w).

Definition raise {A} (e : exn) : M A := fun w => (Raise e, w).

Definition bind {A B} (m : M A) (f : A -> M B) : M B :=
  fun w =>
    match m w with
    | (Ok a, w') => f a w'
    | (Raise e, w') => (Raise e, w')
    end.

Notation "x <- m ;; k" := (bind m (fun x => k))
  (at level 61, m at next level, right associativity).
Notation "m ;; k" := (bind m (fun _ => k))
  (at level 61, right associativity).

Definition lift {A} (r : result A) : M A :=
  match r with Ok a => ret a | Raise e => raise e end.

(** [try: m except <the e with h e = Some k>: k] *)
Definition try_except {A} (m : M A) (h : exn -> option (M A)) : M A :=
  fun w =>
    match m w with
    | (Ok a, w') => (Ok a, w')
    | (Raise e, w') =>
        match h e with
        | Some k => k w'
        | None => (Raise e, w')
        end
    end.

Definition get_self : M WizBulb := fun w => (Ok (self w), w).

Definition modify (f : WizBulb -> WizBulb) : M unit :=
  fun w => (Ok tt, {| self := f (self w); trace := trace w |}).

Definition emit (e : Event) : M unit :=
  fun w => (Ok tt, {| self := self w; trace := trace w ++ [e] |}).

Definition log (lvl : LogLevel) (msg : LogMsg) : M unit := emit (Log lvl msg).

(** A client call: recorded in the trace, then answered by [r]. *)
Definition client {A} (c : ClientCall) (r : result A) : M A :=
  emit (Call c) ;; lift r.

(** [self._light.state.<getter>()]: an attribute read on [None] raises. *)
Definition light_state : M PilotParser :=
  b <- get_self ;;
  match state (_light b) with
  | Some p => ret p
  | None => raise AttributeError
  end.

Fixpoint for_each {A} (l : list A) (body : A -> M unit) : M unit :=
  match l with
  | [] => ret tt
  | x :: l' => body x ;; for_each l' body
  end.

Definition only_timeout {A} (k : exn -> M A) (e : exn) : option (M A) :=
  match e with
  | WizLightTimeOutError => Some (k e)
  | _ => None
  end.

Definition only_not_known_bulb {A} (k : M A) (e : exn) : option (M A) :=
  match e with
  | WizLightNotKnownBulb => Some k
  | _ => None
  end.

(** [except Exception] *)
Definition any_exception {A} (k : exn -> M A) (e : exn) : option (M A) :=
  Some (k e).

(** ** Command dispatch *)

(** The keyword arguments of a turn-on request; [None] is an absent key. *)
Record Kwargs : Type := {
  ATTR_RGB_COLOR : option RGB;
  ATTR_HS_COLOR : option (float * float);
  ATTR_BRIGHTNESS : option Z;
  ATTR_COLOR_TEMP : option Z;
  ATTR_EFFECT : option string
}.

(** The same request with another (or no) [ATTR_RGB_COLOR] entry. *)
Definition with_rgb_color (c : option RGB) (kwargs : Kwargs) : Kwargs :=
  {| ATTR_RGB_COLOR := c; ATTR_HS_COLOR := ATTR_HS_COLOR kwargs;
     ATTR_BRIGHTNESS := ATTR_BRIGHTNESS kwargs;
     ATTR_COLOR_TEMP := ATTR_COLOR_TEMP kwargs;
     ATTR_EFFECT := ATTR_EFFECT kwargs |}.

(** The local [rgb] of [async_turn_on] before the pilot is built. *)
Definition turn_on_rgb (kwargs : Kwargs) : option RGB :=
  let rgb := None in
  let rgb := match ATTR_RGB_COLOR kwargs with
             | Some c => Some c
             | None => rgb
             end in
  match ATTR_HS_COLOR kwargs with
  | Some hs => Some (color_hs_to_RGB (fst hs) (snd hs))
  | None => rgb
  end.

(** [sceneid == 1000]; [None == 1000] is false. *)
Definition is_rhythm (sceneid : option Z) : bool :=
  match sceneid with
  | Some id => id =? 1000
  | None => false
  end.

(** [PilotBuilder(rgb=rgb, brightness=brightness, colortemp=colortemp,
    scene=scene)]: the constructor raises, or returns the command built from
    its arguments. *)
Definition PilotBuilder_of (rgb : option RGB) (brightness colortemp scene : option Z)
  : result PilotBuilder :=
  match PilotBuilder_raises rgb brightness colortemp scene with
  | Some e => Raise e
  | None => Ok {| pilot_rgb := rgb; pilot_brightness := brightness;
                  pilot_colortemp := colortemp; pilot_scene := scene |}
  end.

Definition turn_on_pilot (rgb : option RGB) (brightness colortemp sceneid : option Z)
  : result PilotBuilder :=
  if is_rhythm sceneid then Ok PilotBuilder_empty
  else PilotBuilder_of rgb brightness colortemp sceneid.

Definition async_turn_on (r : Responses) (kwargs : Kwargs) : M unit :=
  let rgb := turn_on_rgb kwargs in
  let brightness := ATTR_BRIGHTNESS kwargs in
  colortemp <- match ATTR_COLOR_TEMP kwargs with
               | Some mired =>
                   kelvin <- lift (color_temperature_mired_to_kelvin mired) ;;
                   log DEBUG (Template "[wizlight %s] kelvin changed and send to bulb: %s") ;;
                   ret (Some kelvin)
               | None => ret None
               end ;;
  sceneid <- match ATTR_EFFECT kwargs with
             | Some nm => id <- lift (get_id_from_scene_name nm) ;; ret (Some id)
             | None => ret None
             end ;;
  pilot <- lift (turn_on_pilot rgb brightness colortemp sceneid) ;;
  client (CallTurnOn pilot) (r_turn_on r pilot).

Definition async_turn_off (r : Responses) : M unit :=
  client CallTurnOff (r_turn_off r).

(** ** Poll cycle *)

Definition update_state_available : M unit :=
  modify (fun b => set_state (status (_light b)) b) ;;
  modify (set_available (Some true)).

Definition update_state_unavailable : M unit :=
  modify (set_state (Some false)) ;;
  modify (set_available (Some false)).

Definition update_state (r : Responses) : M unit :=
  try_except
    (s <- client CallUpdateState (r_updateState r) ;;
     modify (set_light s) ;;
     b <- get_self ;;
     match state (_light b) with
     | None =>
         log DEBUG (Template "[wizlight %s] state unavailable: %s") ;;
         update_state_unavailable
     | Some _ => update_state_available
     end)
    (only_timeout (fun ex => log DEBUG (ExnMsg ex) ;; update_state_unavailable)) ;;
  log DEBUG (Template "[wizlight %s] updated state: %s").

Definition update_brightness : M unit :=
  p <- light_state ;;
  reported <- lift (get_brightness p) ;;
  match reported with
  | PyNone => ret tt
  | _ =>
      try_except
        (p <- light_state ;;
         brightness <- lift (get_brightness p) ;;
         n <- lift (py_int brightness) ;;
         if (0 <=? n) && (n <=? 255) then
           n' <- lift (py_int brightness) ;;
           modify (set_brightness (Some n'))
         else
           log ERROR (Template "Received invalid brightness : %s. Expected: 0-255") ;;
           modify (set_brightness None))
        (any_exception (fun ex => log ERROR (ExnMsg ex) ;; modify (set_state None)))
  end.

Definition update_temperature : M unit :=
  p <- light_state ;;
  reported <- lift (get_colortemp p) ;;
  match reported with
  | None => ret tt
  | Some colortemp =>
      if colortemp =? 0 then ret tt
      else
        try_except
          (log DEBUG (Template "[wizlight %s] kelvin from the bulb: %s") ;;
           temperature <- lift (color_temperature_kelvin_to_mired colortemp) ;;
           modify (set_temperature (Some temperature)))
          (any_exception (fun _ =>
             log ERROR (Template "Cannot evaluate temperature") ;;
             modify (set_temperature None)))
  end.

Definition update_color : M unit :=
  p <- light_state ;;
  reported <- lift (get_rgb p) ;;
  match reported with
  | None => ret tt
  | Some _ =>
      try_except
        (p <- light_state ;;
         triple <- lift (get_rgb p) ;;
         match triple with
         | None => raise TypeError
         | Some (red, green, blue) =>
             match red with
             | None => ret tt
             | Some red =>
                 color <- lift (color_RGB_to_hs red green blue) ;;
                 match color with
                 | Some c => modify (set_hscolor (Some c))
                 | None =>
                     log ERROR (Template "Received invalid HS color : %s") ;;
                     modify (set_hscolor None)
                 end
             end
         end)
        (any_exception (fun _ =>
           log ERROR (Template "Cannot evaluate color") ;;
           modify (set_hscolor None)))
  end.

Definition update_effect : M unit :=
  p <- light_state ;;
  scene <- lift (get_scene p) ;;
  modify (set_effect scene).

Definition get_bulb_type (r : Responses) : M unit :=
  b <- get_self ;;
  match _bulbtype b with
  | None =>
      try_except
        (bt <- client CallGetBulbtype (r_get_bulbtype r) ;;
         modify (set_bulbtype (Some bt)) ;;
         log INFO (Template "[wizlight %s] Initiate the WiZ bulb as %s"))
        (only_timeout (fun _ =>
           log DEBUG (Template "[wizlight %s] Bulbtype update failed - Timeout")))
  | Some _ => ret tt
  end.

Definition update_scene_list : M unit :=
  modify (set_scenes []) ;;
  for_each SCENES (fun number =>
    modify (fun b => set_scenes (_scenes b ++ [snd number]) b)).

Definition get_mac (r : Responses) : M unit :=
  try_except
    (m <- client CallGetMac (r_getMac r) ;;
     modify (set_mac m))
    (only_timeout (fun _ =>
       log DEBUG (Template "[wizlight %s] Mac update failed - Timeout"))).

(** [self._state is not None and self._state is not False] *)
Definition refresh_guard (b : WizBulb) : bool :=
  match _state b with
  | Some true => true
  | _ => false
  end.

(** The derived-attribute refresh: the body of the [if] of [async_update]. *)
Definition refresh_derived : M unit :=
  update_brightness ;;
  update_temperature ;;
  update_color ;;
  update_effect ;;
  update_scene_list.

Definition async_update (r : Responses) : M unit :=
  update_state r ;;
  get_bulb_type r ;;
  get_mac r ;;
  b <- get_self ;;
  if refresh_guard b then refresh_derived else ret tt.

(** ** Feature and range reporting *)

Definition the_bulbtype : M BulbType :=
  b <- get_self ;;
  match _bulbtype b with
  | Some bt => ret bt
  | None => raise AttributeError
  end.

Definition featuremap : M Z :=
  let features_ := 0 in
  try_except
    (bt <- the_bulbtype ;; f <- lift (features bt) ;;
     let features_ := if brightness f then Z.lor features_ SUPPORT_BRIGHTNESS
                      else features_ in
     bt <- the_bulbtype ;; f <- lift (features bt) ;;
     let features_ := if color f then Z.lor features_ SUPPORT_COLOR
                      else features_ in
     bt <- the_bulbtype ;; f <- lift (features bt) ;;
     let features_ := if effect f then Z.lor features_ SUPPORT_EFFECT
                      else features_ in
     bt <- the_bulbtype ;; f <- lift (features bt) ;;
     let features_ := if color_tmp f then Z.lor features_ SUPPORT_COLOR_TEMP
                      else features_ in
     ret features_)
    (only_not_known_bulb
       (log INFO (Template "Bulb is not present in the library. Fallback to full feature.") ;;
        ret (Z.lor (Z.lor (Z.lor SUPPORT_BRIGHTNESS SUPPORT_COLOR) SUPPORT_COLOR_TEMP)
                   SUPPORT_EFFECT))).

Definition kelvin_max_map : M Z :=
  try_except
    (bt <- the_bulbtype ;; kr <- lift (kelvin_range bt) ;;
     kelvin <- lift (color_temperature_kelvin_to_mired (kelvin_max kr)) ;;
     ret kelvin)
    (only_not_known_bulb
       (log INFO (Template "Kelvin is not present in the library. Fallback to 6500") ;;
        ret 6500)).

Definition kelvin_min_map : M Z :=
  try_except
    (bt <- the_bulbtype ;; kr <- lift (kelvin_range bt) ;;
     lift (color_temperature_kelvin_to_mired (kelvin_min kr)))
    (only_not_known_bulb
       (log INFO (Template "Kelvin is not present in the library. Fallback to 2500") ;;
        ret 2500)).

Definition min_mireds : M Z :=
  b <- get_self ;;
  match _bulbtype b with
  | Some _ => kelvin_max_map
  | None => lift (color_temperature_kelvin_to_mired 6500)
  end.

Definition max_mireds : M Z :=
  b <- get_self ;;
  match _bulbtype b with
  | Some _ => kelvin_min_map
  | None => lift (color_temperature_kelvin_to_mired 2500)
  end.

Definition supported_features : M Z :=
  b <- get_self ;;
  match _bulbtype b with
  | Some _ => featuremap
  | None =>
      ret (Z.lor (Z.lor (Z.lor SUPPORT_BRIGHTNESS SUPPORT_COLOR) SUPPORT_COLOR_TEMP)
                 SUPPORT_EFFECT)
  end.

(** [self._scenes[key]] *)
Definition scene_at (b : WizBulb) (key : Z) : M string :=
  match nth_error (_scenes b) (Z.to_nat key) with
  | Some s => ret s
  | None => raise IndexError
  end.

Fixpoint scenes_at (b : WizBulb) (keys : list Z) : M (list string) :=
  match keys with
  | [] => ret []
  | key :: keys' =>
      s <- scene_at b key ;; l <- scenes_at b keys' ;; ret (s :: l)
  end.

Definition effect_list : M (list string) :=
  b <- get_self ;;
  match _bulbtype b with
  | Some bt =>
      if String.eqb (name bt) "ESP56_SHTW3_01" then
        scenes_at b [8; 9; 14; 15; 17; 28; 29; 31]
      else if String.eqb (name bt) "ESP06_SHDW9_01" then
        scenes_at b [8; 9; 13; 28; 30; 29; 31]
      else if String.eqb (name bt) "ESP06_SHDW1_01" then
        scenes_at b [8; 9; 13; 28; 29; 31]
      else if String.eqb (name bt) "ESP15_SHTW1_01I" then
        scenes_at b [5; 8; 9; 10; 11; 12; 13; 14; 15; 17; 28; 30; 29; 31]
      else ret (_scenes b)
  | None => ret []
  end.

(** ** What a refresh leaves behind

    The value each step of the refresh leaves in the attribute it owns, as a
    function of the status object and the value cached before; a step whose
    getter raises leaves the cached value and ends the refresh.  The run
    lemmas below prove that the methods above compute exactly these. *)

Definition brightness_after (p : PilotParser) (old : option Z) : option Z :=
  match get_brightness p with
  | Ok (PyInt n) => if (0 <=? n) && (n <=? 255) then Some n else None
  | _ => old
  end.

Definition state_after (p : PilotParser) (old : option bool) : option bool :=
  match get_brightness p with
  | Ok PyObject => None
  | _ => old
  end.

Definition temperature_after (p : PilotParser) (old : option Z) : option Z :=
  match get_colortemp p with
  | Ok (Some colortemp) =>
      if colortemp =? 0 then old else Some (1000000 / colortemp)
  | _ => old
  end.

Definition hscolor_after (p : PilotParser) (old : option (float * float))
  : option (float * float) :=
  match get_rgb p with
  | Ok (Some (Some red, green, blue)) =>
      match color_RGB_to_hs red green blue with
      | Ok (Some c) => Some c
      | _ => None
      end
  | _ => old
  end.

(** The result of the refresh: the exception of the first getter that
    raises, in the order the steps call them. *)
Definition refresh_result (p : PilotParser) : result unit :=
  match get_brightness p with
  | Raise e => Raise e
  | Ok _ =>
      match get_colortemp p with
      | Raise e => Raise e
      | Ok _ =>
          match get_rgb p with
          | Raise e => Raise e
          | Ok _ =>
              match get_scene p with
              | Raise e => Raise e
              | Ok _ => Ok tt
              end
          end
      end
  end.

(** The entity the refresh leaves: every step up to the first getter that
    raises has assigned its attribute. *)
Definition refreshed (p : PilotParser) (b : WizBulb) : WizBulb :=
  match get_brightness p with
  | Raise _ => b
  | Ok _ =>
      let b1 := set_state (state_after p (_state b))
                  (set_brightness (brightness_after p (_brightness b)) b) in
      match get_colortemp p with
      | Raise _ => b1
      | Ok _ =>
          let b2 := set_temperature (temperature_after p (_temperature b)) b1 in
          match get_rgb p with
          | Raise _ => b2
          | Ok _ =>
              let b3 := set_hscolor (hscolor_after p (_hscolor b)) b2 in
              match get_scene p with
              | Raise _ => b3
              | Ok scene => set_scenes (map snd SCENES) (set_effect scene b3)
              end
          end
      end
  end.

End Adapter.

(** ** Device metadata *)

(** The dictionary returned by [device_info]; [identifiers] is the set with
    the one pair (DOMAIN, mac). *)
Record DeviceInfo : Type := {
  identifiers : list (string * option string);
  info_name : string;
  manufacturer : string;
  model : string
}.

Section Metadata.
Context {ext : Externals}.
(** [DOMAIN] of the integration's [const] module. *)
Variable DOMAIN : string.

Notation "x <- m ;; k" := (bind m (fun x => k))
  (at level 61, m at next level, right associativity).
Notation "m ;; k" := (bind m (fun _ => k))
  (at level 61, right associativity).

(** [device_info]: the debug record reads [self._bulbtype.name] before the
    dictionary is built. *)
Definition device_info : M DeviceInfo :=
  bt <- the_bulbtype ;;
  log DEBUG (Template "[wizlight %s] Call device info: MAC: %s - Name: %s - Type: %s") ;;
  b <- get_self ;;
  bt <- the_bulbtype ;;
  ret {| identifiers := [(DOMAIN, _mac b)];
         info_name := _name b;
         manufacturer := "WiZ Light Platform";
         model := name bt |}.

End Metadata.

(** ** Invariants of the entity *)

Section Invariants.
Context {ext : Externals}.

(** The cached brightness is absent or within 0..255. *)
Definition brightness_in_range (b : WizBulb) : Prop :=
  match _brightness b with
  | Some n => 0 <= n <= 255
  | None => True
  end.

(** A bulb marked unavailable is marked off. *)
Definition unavailable_is_off (b : WizBulb) : Prop :=
  _available b = Some false -> _state b = Some false.

End Invariants.

Section Requests.
Context {ext : Externals}.

(** The scene id the effect name of a request resolves to, when the lookup
    of the client returns: none without an effect name. *)
Definition resolves_to (kwargs : Kwargs) (sceneid : option Z) : Prop :=
  match ATTR_EFFECT kwargs with
  | Some nm => exists id, get_id_from_scene_name nm = Ok id /\ sceneid = Some id
  | None => sceneid = None
  end.

(** The local [colortemp] of [async_turn_on] when the conversion returns. *)
Definition turn_on_colortemp (kwargs : Kwargs) : option Z :=
  match ATTR_COLOR_TEMP kwargs with
  | Some mired => Some (1000000 / mired)
  | None => None
  end.

End Requests.

(** The four model names [effect_list] gives a scene subset of their own. *)
Definition is_special_model (nm : string) : Prop :=
  nm = "ESP56_SHTW3_01" \/ nm = "ESP06_SHDW9_01"
  \/ nm = "ESP06_SHDW1_01" \/ nm = "ESP15_SHTW1_01I".

(** ** A concrete platform and concrete bulbs, for examples *)

Module Demo.

Definition scene_table : list (Z * string) :=
  [(1, "Ocean"); (2, "Romance"); (3, "Sunset"); (4, "Party");
   (5, "Fireplace"); (6, "Cozy"); (1000, "Rhythm")].

Fixpoint id_of (tbl : list (Z * string)) (nm : string) : result Z :=
  match tbl with
  | [] => Raise ValueError
  | (k, v) :: tbl' => if String.eqb v nm then Ok k else id_of tbl' nm
  end.

(** Hue and saturation stand in as integers here; the conversions are
    arbitrary but fixed. *)
#[export] Instance platform : Externals := {|
  float := Z;
  SUPPORT_BRIGHTNESS := 1;
  SUPPORT_COLOR := 16;
  SUPPORT_COLOR_TEMP := 2;
  SUPPORT_EFFECT := 4;
  color_hs_to_RGB := fun h s => (h mod 256, s mod 256, 0);
  color_RGB_to_hs := fun r g b =>
    match g, b with
    | Some g, Some b => Ok (Some (r + g, b))
    | _, _ => Raise TypeError
    end;
  SCENES := scene_table;
  get_id_from_scene_name := id_of scene_table;
  PilotBuilder_raises := fun _ brightness _ _ =>
    match brightness with
    | Some n => if (0 <=? n) && (n <=? 255) then None else Some ValueError
    | None => None
    end
|}.

Definition status_of (v : pyval) (ct : option Z)
    (rgb : option (option Z * option Z * option Z)) : PilotParser :=
  {| get_brightness := Ok v; get_colortemp := Ok ct; get_rgb := Ok rgb;
     get_scene := Ok (Some "Ocean") |}.

Definition handle (p : option PilotParser) : wizlight :=
  {| ip := "192.168.1.20"; state := p; status := Some true |}.

(** A bulb that is on, with every display attribute cached. *)
Definition lit (p : option PilotParser) (bt : option BulbType) : WizBulb :=
  {| _light := handle p; _state := Some true; _brightness := Some 100;
     _name := "desk"; _rgb_color := None; _temperature := Some 370;
     _hscolor := Some (30, 80); _available := Some true;
     _effect := Some "Cozy"; _scenes := []; _bulbtype := bt;
     _mac := Some "a8bb50aabbcc" |}.

Definition world_of (b : WizBulb) : World := {| self := b; trace := [] |}.

Definition features_all : Features :=
  {| brightness := true; color := true; effect := true; color_tmp := true |}.

Definition known_bulb : BulbType :=
  {| name := "ESP01_SHRGB1C_31"; features := Ok features_all;
     kelvin_range := Ok {| kelvin_min := 2200; kelvin_max := 6500 |} |}.

(** A descriptor whose lookups report an unknown bulb. *)
Definition unknown_bulb : BulbType :=
  {| name := "ESP99_UNKNOWN"; features := Raise WizLightNotKnownBulb;
     kelvin_range := Raise WizLightNotKnownBulb |}.

Definition answers (us : result (option PilotParser * option bool))
    (bt : result BulbType) (mac : result (option string))
    (cmd : result unit) : Responses :=
  {| r_updateState := us; r_get_bulbtype := bt; r_getMac := mac;
     r_turn_on := fun _ => cmd; r_turn_off := cmd |}.

Definition request (rgb : option RGB) (hs : option (Z * Z))
    (eff : option string) : Kwargs :=
  {| ATTR_RGB_COLOR := rgb; ATTR_HS_COLOR := hs; ATTR_BRIGHTNESS := Some 200;
     ATTR_COLOR_TEMP := Some 250; ATTR_EFFECT := eff |}.


Definition timeout {A} : result A := Raise WizLightTimeOutError.

Definition reports_ok : PilotParser :=
  status_of (PyInt 128) (Some 2700) (Some (Some 255, Some 0, Some 0)).

(** Every client call times out. *)
Definition all_timeout : Responses := answers timeout timeout timeout timeout.

(** The status arrives, the descriptor and identifier fetches time out. *)
Definition fetches_timeout : Responses :=
  answers (Ok (Some reports_ok, Some true)) timeout timeout (Ok tt).

Definition all_ok : Responses :=
  answers (Ok (Some reports_ok, Some true)) (Ok known_bulb)
    (Ok (Some "a8bb50aabbcc")) (Ok tt).

(** The status arrives with the bulb off. *)
Definition bulb_off : Responses :=
  answers (Ok (Some reports_ok, Some false)) (Ok known_bulb)
    (Ok (Some "a8bb50aabbcc")) (Ok tt).

(** The bulb cannot be reached. *)
Definition connection_lost : Responses :=
  answers (Raise WizLightConnectionError) (Raise WizLightConnectionError)
    (Raise WizLightConnectionError) (Raise WizLightConnectionError).

(** The client does not know the model of the bulb. *)
Definition unknown_model : Responses :=
  answers (Ok (Some reports_ok, Some true)) (Raise WizLightNotKnownBulb)
    (Ok (Some "a8bb50aabbcc")) (Ok tt).

(** Everything answers, but the identifier fetch returns no identifier. *)
Definition identifier_unanswered : Responses :=
  answers (Ok (Some reports_ok, Some true)) (Ok known_bulb) (Ok None) (Ok tt).

(** A status object whose brightness cannot be converted to an integer. *)
Definition reports_odd_brightness : PilotParser :=
  status_of PyObject (Some 4000) (Some (Some 255, Some 0, Some 0)).

(** A status object whose scene getter raises: the answer of the bulb has
    no scene id. *)
Definition reports_no_scene : PilotParser :=
  {| get_brightness := Ok (PyInt 128); get_colortemp := Ok (Some 2700);
     get_rgb := Ok (Some (Some 255, Some 0, Some 0));
     get_scene := Raise KeyError |}.

Definition no_scene : Responses :=
  answers (Ok (Some reports_no_scene, Some true)) timeout timeout (Ok tt).

Definition odd_brightness : Responses :=
  answers (Ok (Some reports_odd_brightness, Some true)) timeout timeout (Ok tt).

Definition filament_bulb : BulbType :=
  {| name := "ESP56_SHTW3_01"; features := Ok features_all;
     kelvin_range := Ok {| kelvin_min := 2200; kelvin_max := 6500 |} |}.

End Demo.

(** * Properties *)

Ltac unfold_monad :=
  unfold client, log, emit, modify, get_self, light_state, the_bulbtype,
    lift, try_except, only_timeout, only_not_known_bulb, any_exception,
    bind, ret, raise in *.

Ltac unfold_adapter :=
  unfold async_update, refresh_derived, update_state, update_state_available,
    update_state_unavailable, update_brightness, update_temperature,
    update_color, update_effect, get_bulb_type, get_mac, refresh_guard,
    async_turn_on, async_turn_off, supported_features, min_mireds,
    max_mireds, featuremap, kelvin_max_map, kelvin_min_map in *;
  unfold_monad.

(** Break a world into its fields, so that every read computes. *)
Ltac open_world w :=
  let b := fresh "b" in let tr := fresh "tr" in let l := fresh "l" in
  destruct w as [b tr];
  destruct b as [l ? ? ? ? ? ? ? ? ? ? ?];
  destruct l as [? ? ?];
  cbn in *.

(** The same, naming the cached descriptor. *)
Ltac open_entity w cached :=
  destruct w as [[[? ? ?] ? ? ? ? ? ? ? ? ? cached ?] ?]; cbn in *.

Ltac unfold_cycle :=
  unfold async_update, update_state, update_state_available,
    update_state_unavailable, get_bulb_type, get_mac, refresh_guard in *;
  unfold_monad.

Ltac open_request kwargs w :=
  let rgb := fresh "rgb" in let hs := fresh "hs" in let br := fresh "br" in
  let ct := fresh "ct" in let eff := fresh "eff" in
  let b := fresh "b" in let tr := fresh "tr" in
  destruct kwargs as [rgb hs br ct eff]; destruct w as [b tr];
  unfold async_turn_on, color_temperature_mired_to_kelvin;
  unfold_monad; cbn in *.

Section Properties.
Context {ext : Externals}.

Lemma calls_of_app (t1 t2 : list Event) :
  calls_of (t1 ++ t2) = calls_of t1 ++ calls_of t2.
Proof.
  induction t1 as [|e t1 IH]; cbn; [reflexivity|].
  destruct e; cbn; rewrite IH; reflexivity.
Qed.

Lemma errors_of_app (t1 t2 : list Event) :
  errors_of (t1 ++ t2) = errors_of t1 ++ errors_of t2.
Proof.
  induction t1 as [|e t1 IH]; cbn; [reflexivity|].
  destruct e as [c|[] m]; cbn; rewrite IH; reflexivity.
Qed.

(** The loop of [update_scene_list] appends the scene names in table order
    and touches nothing else. *)
Lemma for_each_append (tbl : list (Z * string)) (w : World) :
  for_each tbl (fun number =>
      modify (fun b => set_scenes (_scenes b ++ [snd number]) b)) w
  = (Ok tt, {| self := set_scenes (_scenes (self w) ++ map snd tbl) (self w);
               trace := trace w |}).
Proof.
  revert w; induction tbl as [|kv tbl IH]; intros [b tr]; cbn.
  - rewrite app_nil_r. destruct b; reflexivity.
  - unfold bind, modify at 1; cbn. rewrite IH; cbn.
    rewrite <- app_assoc; reflexivity.
Qed.

Lemma update_scene_list_eq (w : World) :
  update_scene_list w
  = (Ok tt, {| self := set_scenes (map snd SCENES) (self w); trace := trace w |}).
Proof.
  unfold update_scene_list, bind, modify at 1; cbn.
  rewrite for_each_append; reflexivity.
Qed.

(** ** Derived-attribute refresh: run lemmas *)

Arguments update_scene_list : simpl never.

Ltac close_run lg := exists lg; cbn; rewrite ?app_nil_r; split; reflexivity.

(** Each step returns unless its getter raises, and then raises what the
    getter raised with nothing assigned. *)
Lemma update_brightness_run (w : World) (p : PilotParser) :
  state (_light (self w)) = Some p ->
  exists lg,
    update_brightness w
    = (match get_brightness p with Ok _ => Ok tt | Raise e => Raise e end,
       {| self := set_state (state_after p (_state (self w)))
                    (set_brightness (brightness_after p (_brightness (self w)))
                       (self w));
          trace := trace w ++ lg |})
    /\ calls_of lg = [].
Proof.
  intros Hp. open_world w. subst. destruct p as [v ct rgb sc].
  unfold state_after, brightness_after.
  unfold_adapter; cbn.
  destruct v as [[|n|]|e]; cbn.
  - close_run (@nil Event).
  - destruct ((0 <=? n) && (n <=? 255)); cbn.
    + close_run (@nil Event).
    + eexists; split; [reflexivity|reflexivity].
  - eexists; split; [reflexivity|reflexivity].
  - close_run (@nil Event).
Qed.

Lemma update_temperature_run (w : World) (p : PilotParser) :
  state (_light (self w)) = Some p ->
  exists lg,
    update_temperature w
    = (match get_colortemp p with Ok _ => Ok tt | Raise e => Raise e end,
       {| self := set_temperature
                    (temperature_after p (_temperature (self w))) (self w);
          trace := trace w ++ lg |})
    /\ calls_of lg = [].
Proof.
  intros Hp. open_world w. subst. destruct p as [v ct rgb sc].
  unfold_adapter.
  unfold temperature_after, color_temperature_kelvin_to_mired; cbn.
  destruct ct as [[ct|]|e]; cbn; try (close_run (@nil Event)).
  destruct (ct =? 0) eqn:E; cbn; [close_run (@nil Event)|].
  eexists; split; reflexivity.
Qed.

Lemma update_color_run (w : World) (p : PilotParser) :
  state (_light (self w)) = Some p ->
  exists lg,
    update_color w
    = (match get_rgb p with Ok _ => Ok tt | Raise e => Raise e end,
       {| self := set_hscolor (hscolor_after p (_hscolor (self w))) (self w);
          trace := trace w ++ lg |})
    /\ calls_of lg = [].
Proof.
  intros Hp. open_world w. subst. destruct p as [v ct rgb sc].
  unfold hscolor_after.
  unfold_adapter; cbn.
  destruct rgb as [[[[[red|] green] blue]|]|e]; cbn;
    try (close_run (@nil Event)).
  destruct (color_RGB_to_hs red green blue) as [[c|]|e]; cbn.
  - close_run (@nil Event).
  - eexists; split; reflexivity.
  - eexists; split; reflexivity.
Qed.

Lemma update_effect_run (w : World) (p : PilotParser) :
  state (_light (self w)) = Some p ->
  update_effect w
  = match get_scene p with
    | Ok scene =>
        (Ok tt, {| self := set_effect scene (self w); trace := trace w |})
    | Raise e => (Raise e, w)
    end.
Proof.
  intros Hp. open_world w. subst. destruct p as [v ct rgb [sc|e]]; reflexivity.
Qed.

(** With a status object at hand the whole refresh makes no client call,
    ends as [refresh_result] says and leaves exactly [refreshed]. *)
Lemma refresh_derived_run (w : World) (p : PilotParser) :
  state (_light (self w)) = Some p ->
  exists lg,
    refresh_derived w
    = (refresh_result p,
       {| self := refreshed p (self w); trace := trace w ++ lg |})
    /\ calls_of lg = [].
Proof.
  intros Hp. unfold refresh_derived, bind, refresh_result, refreshed.
  destruct (update_brightness_run w p Hp) as (l1 & -> & C1).
  destruct (get_brightness p) as [v|e] eqn:Hb.
  2:{ exists l1. split; [|exact C1].
      unfold state_after, brightness_after. rewrite Hb.
      destruct w as [[]]; reflexivity. }
  match goal with |- context [update_temperature ?w1] =>
    destruct (update_temperature_run w1 p Hp) as (l2 & -> & C2) end.
  destruct (get_colortemp p) as [ct|e] eqn:Hc.
  2:{ exists (l1 ++ l2). rewrite calls_of_app, C1, C2. split; [|reflexivity].
      cbn. unfold temperature_after. rewrite Hc, app_assoc.
      destruct w as [[]]; reflexivity. }
  match goal with |- context [update_color ?w1] =>
    destruct (update_color_run w1 p Hp) as (l3 & -> & C3) end.
  destruct (get_rgb p) as [rgb|e] eqn:Hr.
  2:{ exists (l1 ++ l2 ++ l3). rewrite !calls_of_app, C1, C2, C3.
      split; [|reflexivity].
      cbn. unfold hscolor_after. rewrite Hr, !app_assoc.
      destruct w as [[]]; reflexivity. }
  match goal with |- context [update_effect ?w1] =>
    rewrite (update_effect_run w1 p Hp) end.
  destruct (get_scene p) as [sc|e] eqn:Hs.
  - rewrite update_scene_list_eq. cbn.
    exists (l1 ++ l2 ++ l3). split.
    + rewrite !app_assoc. reflexivity.
    + rewrite !calls_of_app, C1, C2, C3. reflexivity.
  - exists (l1 ++ l2 ++ l3). split.
    + cbn. rewrite !app_assoc. reflexivity.
    + rewrite !calls_of_app, C1, C2, C3. reflexivity.
Qed.

(** What the refresh leaves in the attributes of the first step, and what it
    never assigns. *)
Lemma refreshed_frame (p : PilotParser) (b : WizBulb) :
  _brightness (refreshed p b) = brightness_after p (_brightness b) /\
  _state (refreshed p b) = state_after p (_state b) /\
  _light (refreshed p b) = _light b /\
  _available (refreshed p b) = _available b /\
  _bulbtype (refreshed p b) = _bulbtype b /\
  _mac (refreshed p b) = _mac b /\
  _name (refreshed p b) = _name b.
Proof.
  unfold refreshed, brightness_after, state_after.
  destruct (get_brightness p) as [v|e]; [|repeat split].
  destruct (get_colortemp p), (get_rgb p), (get_scene p); repeat split.
Qed.

(** ** Poll cycle *)

Arguments refresh_derived : simpl never.

(** C1: when the status fetch of a poll cycle times out, or returns no
    status object, the cycle leaves availability false and on/off false, and
    the cached brightness, HS colour, mired temperature and effect are the
    ones cached before the cycle (whatever the two later fetches answer). *)
Theorem C1_failed_poll_forces_unavailable_keeps_display (r : Responses) (w : World) :
  r_updateState r = Raise WizLightTimeOutError
  \/ (exists st, r_updateState r = Ok (None, st)) ->
  let w' := snd (async_update r w) in
  _available (self w') = Some false /\
  _state (self w') = Some false /\
  _brightness (self w') = _brightness (self w) /\
  _hscolor (self w') = _hscolor (self w) /\
  _temperature (self w') = _temperature (self w) /\
  _effect (self w') = _effect (self w).
Proof.
  intros H. destruct r as [us bt mac on off]. open_entity w cached.
  unfold_cycle.
  destruct H as [->|[st ->]]; cbn;
    destruct cached as [cached|]; cbn;
    try (destruct bt as [b|[]]; cbn);
    destruct mac as [m|[]]; cbn; repeat split.
Qed.

(** ** Brightness *)

(** C2 (amended): a reported integer brightness within 0..255 is stored and
    nothing is logged as an error; a reported integer outside 0..255 clears
    the stored brightness (it becomes [None]) and logs one error.  The other
    steps of the refresh do not touch the stored brightness. *)
Theorem C2_brightness_stored_in_range_cleared_outside
    (w : World) (p : PilotParser) (b : Z) :
  state (_light (self w)) = Some p ->
  get_brightness p = Ok (PyInt b) ->
  let w' := snd (update_brightness w) in
  fst (update_brightness w) = Ok tt /\
  (0 <= b <= 255 ->
     _brightness (self w') = Some b /\
     errors_of (trace w') = errors_of (trace w)) /\
  (b < 0 \/ 255 < b ->
     _brightness (self w') = None /\
     errors_of (trace w')
     = errors_of (trace w)
       ++ [Template "Received invalid brightness : %s. Expected: 0-255"]) /\
  _brightness (self (snd (refresh_derived w))) = _brightness (self w').
Proof.
  intros Hp Hb.
  destruct (refresh_derived_run w p Hp) as (lg & Hr & _). rewrite Hr; clear Hr.
  cbn [snd self]. destruct (refreshed_frame p (self w)) as (-> & _).
  open_world w. subst. destruct p as [v ct rgb sc]. cbn in Hb; subst v.
  unfold brightness_after. unfold_adapter; cbn.
  destruct ((0 <=? b) && (b <=? 255)) eqn:E; cbn.
  - apply andb_true_iff in E as [E1 E2].
    apply Z.leb_le in E1. apply Z.leb_le in E2.
    repeat split; intros; try lia; reflexivity.
  - apply andb_false_iff in E.
    repeat split; intros; try reflexivity.
    + destruct E as [E|E]; apply Z.leb_gt in E; lia.
    + destruct E as [E|E]; apply Z.leb_gt in E; lia.
    + rewrite errors_of_app; reflexivity.
Qed.

(** ** Colour temperature *)

(** C8: when the reported colour temperature is absent or 0, the temperature
    step returns without any change, and the whole refresh leaves the cached
    mired value as it was. *)
Theorem C8_absent_or_zero_colortemp_keeps_mired (w : World) (p : PilotParser) :
  state (_light (self w)) = Some p ->
  get_colortemp p = Ok None \/ get_colortemp p = Ok (Some 0) ->
  update_temperature w = (Ok tt, w) /\
  _temperature (self (snd (refresh_derived w))) = _temperature (self w).
Proof.
  intros Hp Hc.
  destruct (refresh_derived_run w p Hp) as (lg & Hr & _). rewrite Hr; clear Hr.
  open_world w. subst. destruct p as [v ct rgb sc]. cbn in Hc.
  unfold refreshed, temperature_after. unfold_adapter; cbn.
  destruct Hc as [->| ->]; cbn; split; try reflexivity.
  all: destruct v, rgb, sc; reflexivity.
Qed.

(** ** HS colour *)

(** C9: when no RGB triple is reported, or the red channel of the triple is
    absent, the colour step returns without any change, and the whole
    refresh leaves the cached HS colour as it was. *)
Theorem C9_absent_red_keeps_hscolor (w : World) (p : PilotParser) :
  state (_light (self w)) = Some p ->
  get_rgb p = Ok None
  \/ (exists green blue, get_rgb p = Ok (Some (None, green, blue))) ->
  update_color w = (Ok tt, w) /\
  _hscolor (self (snd (refresh_derived w))) = _hscolor (self w).
Proof.
  intros Hp Hc.
  destruct (refresh_derived_run w p Hp) as (lg & Hr & _). rewrite Hr; clear Hr.
  open_world w. subst. destruct p as [v ct rgb sc]. cbn in Hc.
  unfold refreshed, hscolor_after. unfold_adapter; cbn.
  destruct Hc as [->|(g & b & ->)]; cbn; split; try reflexivity.
  all: destruct v, ct, sc; reflexivity.
Qed.

(** ** Brightness that cannot be converted *)

(** C10 (amended): when a brightness is reported and its conversion to an
    integer raises, the brightness step logs the exception as an error and
    returns: the cached on/off state becomes [None] and the cached
    brightness stays as it was.  No refresh is skipped on that account: the
    remaining steps of the same refresh still run and assign their
    attributes, and the status fetch of the next poll cycle assigns the
    on/off state anew, so a bulb reported on is refreshed again. *)
Theorem C10_unconvertible_brightness_resets_state_refresh_goes_on
    (w : World) (p : PilotParser) (v : pyval) (e : exn) :
  state (_light (self w)) = Some p ->
  get_brightness p = Ok v ->
  v <> PyNone ->
  py_int v = Raise e ->
  update_brightness w
  = (Ok tt, {| self := set_state None (self w);
               trace := trace w ++ [Log ERROR (ExnMsg e)] |}) /\
  (forall ct rgb scene,
     get_colortemp p = Ok ct -> get_rgb p = Ok rgb -> get_scene p = Ok scene ->
     let w' := snd (refresh_derived w) in
     fst (refresh_derived w) = Ok tt /\
     _state (self w') = None /\
     _brightness (self w') = _brightness (self w) /\
     _temperature (self w') = temperature_after p (_temperature (self w)) /\
     _hscolor (self w') = hscolor_after p (_hscolor (self w)) /\
     _effect (self w') = scene /\
     _scenes (self w') = map snd SCENES) /\
  (forall (w2 : World) (next : Responses) p' st,
     _state (self w2) = None ->
     r_updateState next = Ok (Some p', st) ->
     _state (self (snd (update_state next w2))) = st /\
     refresh_guard (self (snd (update_state next w2)))
     = match st with Some true => true | _ => false end).
Proof.
  intros Hp Hv Hn He. split; [|split].
  - open_world w. subst. destruct p as [gb ct rgb sc].
    cbn in Hv; subst gb. unfold_adapter; cbn.
    destruct v as [|n|]; cbn in *; congruence.
  - intros ct rgb scene Hct Hrgb Hsc.
    destruct (refresh_derived_run w p Hp) as (lg & Hr & _).
    rewrite Hr; clear Hr. cbn [fst snd self].
    unfold refresh_result, refreshed, state_after, brightness_after.
    rewrite Hv, Hct, Hrgb, Hsc.
    destruct v as [|n|]; cbn in *; try congruence.
    repeat split.
  - intros w2 next p' st Hs Hus.
    destruct next as [us bt mac on off]; cbn in Hus; subst us.
    open_world w2. unfold_cycle. cbn.
    destruct st as [[|]|]; split; reflexivity.
Qed.

(** ** Command dispatch *)

Arguments turn_on_pilot : simpl never.
Arguments turn_on_rgb : simpl never.

(** What a turn-on request does.  Either it raises before anything is sent
    (the mired conversion, the scene lookup or the constructor of the
    command raised); or exactly one command is sent, the one built from the
    request, and the answer of the client to it is the result.  The object
    itself is never assigned. *)
Lemma async_turn_on_run (r : Responses) (kwargs : Kwargs) (w : World) :
  let res := async_turn_on r kwargs w in
  self (snd res) = self w /\
  ((is_raise (fst res) = true /\
    calls_of (trace (snd res)) = calls_of (trace w) /\
    (ATTR_COLOR_TEMP kwargs = Some 0
     \/ (exists nm e, ATTR_EFFECT kwargs = Some nm
                      /\ get_id_from_scene_name nm = Raise e
                      /\ fst res = Raise e)
     \/ (exists sceneid e,
           resolves_to kwargs sceneid /\
           turn_on_pilot (turn_on_rgb kwargs) (ATTR_BRIGHTNESS kwargs)
             (turn_on_colortemp kwargs) sceneid = Raise e /\
           fst res = Raise e)))
   \/
   (exists sceneid pilot,
      ATTR_COLOR_TEMP kwargs <> Some 0 /\
      resolves_to kwargs sceneid /\
      turn_on_pilot (turn_on_rgb kwargs) (ATTR_BRIGHTNESS kwargs)
        (turn_on_colortemp kwargs) sceneid = Ok pilot /\
      fst res = r_turn_on r pilot /\
      calls_of (trace (snd res)) = calls_of (trace w) ++ [CallTurnOn pilot])).
Proof.
  unfold resolves_to, turn_on_colortemp. open_request kwargs w.
  destruct ct as [m|]; [destruct (m =? 0) eqn:E|]; cbn.
  - apply Z.eqb_eq in E; subst m. split; [reflexivity|]. left. auto.
  - apply Z.eqb_neq in E.
    destruct eff as [nm|]; cbn;
      [destruct (get_id_from_scene_name nm) as [id|e] eqn:Hid; cbn|].
    + match goal with |- context [turn_on_pilot ?a ?b0 ?c ?d] =>
        destruct (turn_on_pilot a b0 c d) as [pilot|e] eqn:Hpl; cbn end.
      * destruct (r_turn_on r pilot) eqn:Ha; cbn.
        all: split; [reflexivity|]; right; exists (Some id), pilot.
        all: rewrite !calls_of_app; cbn; rewrite app_nil_r.
        all: repeat split; try congruence; eauto.
      * split; [reflexivity|]. left. rewrite calls_of_app; cbn.
        rewrite app_nil_r. repeat split. right; right.
        exists (Some id), e. repeat split; eauto.
    + split; [reflexivity|]. left. rewrite calls_of_app; cbn.
      rewrite app_nil_r. repeat split. right; left. eauto.
    + match goal with |- context [turn_on_pilot ?a ?b0 ?c ?d] =>
        destruct (turn_on_pilot a b0 c d) as [pilot|e] eqn:Hpl; cbn end.
      * destruct (r_turn_on r pilot) eqn:Ha; cbn.
        all: split; [reflexivity|]; right; exists None, pilot.
        all: rewrite !calls_of_app; cbn; rewrite app_nil_r.
        all: repeat split; try congruence; eauto.
      * split; [reflexivity|]. left. rewrite calls_of_app; cbn.
        rewrite app_nil_r. repeat split. right; right.
        exists None, e. repeat split; eauto.
  - destruct eff as [nm|]; cbn;
      [destruct (get_id_from_scene_name nm) as [id|e] eqn:Hid; cbn|].
    + match goal with |- context [turn_on_pilot ?a ?b0 ?c ?d] =>
        destruct (turn_on_pilot a b0 c d) as [pilot|e] eqn:Hpl; cbn end.
      * destruct (r_turn_on r pilot) eqn:Ha; cbn.
        all: split; [reflexivity|]; right; exists (Some id), pilot.
        all: rewrite !calls_of_app; cbn.
        all: repeat split; try congruence; eauto.
      * split; [reflexivity|]. left. repeat split. right; right.
        exists (Some id), e. repeat split; eauto.
    + split; [reflexivity|]. left. repeat split. right; left. eauto.
    + match goal with |- context [turn_on_pilot ?a ?b0 ?c ?d] =>
        destruct (turn_on_pilot a b0 c d) as [pilot|e] eqn:Hpl; cbn end.
      * destruct (r_turn_on r pilot) eqn:Ha; cbn.
        all: split; [reflexivity|]; right; exists None, pilot.
        all: rewrite !calls_of_app; cbn.
        all: repeat split; try congruence; eauto.
      * split; [reflexivity|]. left. repeat split. right; right.
        exists None, e. repeat split; eauto.
Qed.

Lemma rhythm_pilot (rgb : option RGB) (br ct : option Z) :
  turn_on_pilot rgb br ct (Some 1000) = Ok PilotBuilder_empty.
Proof. reflexivity. Qed.

(** C6: when the effect name of a turn-on request resolves to scene id 1000,
    every command the request sends has no brightness, no colour, no colour
    temperature and no scene; unless the colour-temperature conversion
    raises (a mired value of 0), exactly one such command is sent. *)
Theorem C6_rhythm_sends_bare_command
    (r : Responses) (kwargs : Kwargs) (w : World) (nm : string) :
  ATTR_EFFECT kwargs = Some nm ->
  get_id_from_scene_name nm = Ok 1000 ->
  let w' := snd (async_turn_on r kwargs w) in
  exists sent,
    calls_of (trace w') = calls_of (trace w) ++ sent /\
    (forall c, In c sent ->
       exists pilot, c = CallTurnOn pilot /\
         pilot_brightness pilot = None /\ pilot_rgb pilot = None /\
         pilot_colortemp pilot = None /\ pilot_scene pilot = None) /\
    (ATTR_COLOR_TEMP kwargs <> Some 0 ->
       sent = [CallTurnOn PilotBuilder_empty]).
Proof.
  intros He Hid w'. subst w'.
  assert (Hsid : forall sid, resolves_to kwargs sid -> sid = Some 1000).
  { unfold resolves_to. rewrite He. intros sid (id & Hid' & ->). congruence. }
  destruct (async_turn_on_run r kwargs w)
    as (_ & [(_ & Hc & Hwhy)|(sid & pilot & Hct & Hs & Hpl & _ & Hc)]).
  - exists []. rewrite app_nil_r. split; [exact Hc|]. split.
    + intros c [].
    + intros Hn.
      destruct Hwhy as [H0|[(nm' & e & He' & Hid' & _)|(sid & e & Hs & Hpl & _)]].
      * contradiction.
      * congruence.
      * rewrite (Hsid sid Hs), rhythm_pilot in Hpl. discriminate.
  - rewrite (Hsid sid Hs), rhythm_pilot in Hpl. injection Hpl as <-.
    exists [CallTurnOn PilotBuilder_empty]. split; [exact Hc|]. split.
    + intros c [<-|[]]. exists PilotBuilder_empty. repeat split.
    + reflexivity.
Qed.

(** C7: when a turn-on request supplies both an HS colour and an RGB colour,
    the supplied RGB colour has no effect on what the request does, and any
    command the request sends carries the HS colour converted to RGB (or is
    the bare command of the rhythm scene).  When the effect does not resolve
    to scene id 1000 and no conversion raises, the command is built from the
    converted HS colour: if the constructor of the client accepts it with
    the requested brightness, exactly one command is sent and its RGB value
    is the converted HS colour; if the constructor raises for them, nothing
    is sent and the request raises what the constructor raised. *)
Theorem C7_hs_color_takes_precedence_over_rgb
    (r : Responses) (kwargs : Kwargs) (w : World)
    (h s : float) (c : RGB) :
  ATTR_HS_COLOR kwargs = Some (h, s) ->
  ATTR_RGB_COLOR kwargs = Some c ->
  let w' := snd (async_turn_on r kwargs w) in
  turn_on_rgb kwargs = Some (color_hs_to_RGB h s) /\
  (forall c', async_turn_on r (with_rgb_color c' kwargs) w
              = async_turn_on r kwargs w) /\
  exists sent,
    calls_of (trace w') = calls_of (trace w) ++ sent /\
    (forall x, In x sent ->
       exists pilot, x = CallTurnOn pilot /\
         (pilot_rgb pilot = Some (color_hs_to_RGB h s)
          \/ pilot = PilotBuilder_empty)) /\
    (ATTR_COLOR_TEMP kwargs <> Some 0 ->
     (forall nm, ATTR_EFFECT kwargs = Some nm ->
        exists id, get_id_from_scene_name nm = Ok id /\ id <> 1000) ->
     ((forall ct sc,
         PilotBuilder_raises (Some (color_hs_to_RGB h s))
           (ATTR_BRIGHTNESS kwargs) ct sc = None) ->
      exists pilot, sent = [CallTurnOn pilot] /\
        pilot_rgb pilot = Some (color_hs_to_RGB h s)) /\
     (forall e,
        (forall ct sc,
           PilotBuilder_raises (Some (color_hs_to_RGB h s))
             (ATTR_BRIGHTNESS kwargs) ct sc = Some e) ->
        sent = [] /\ fst (async_turn_on r kwargs w) = Raise e)).
Proof.
  intros Hhs Hrgb w'. subst w'.
  assert (Hlocal : turn_on_rgb kwargs = Some (color_hs_to_RGB h s)).
  { unfold turn_on_rgb. rewrite Hhs. reflexivity. }
  split; [exact Hlocal|]. split.
  { intros c'. unfold async_turn_on, turn_on_rgb, with_rgb_color; cbn.
    rewrite Hhs. reflexivity. }
  assert (Hplain : (forall nm, ATTR_EFFECT kwargs = Some nm ->
              exists id, get_id_from_scene_name nm = Ok id /\ id <> 1000) ->
            forall sid, resolves_to kwargs sid -> is_rhythm sid = false).
  { unfold resolves_to. intros Hscene sid Hs.
    destruct (ATTR_EFFECT kwargs) as [nm|]; [|subst sid; reflexivity].
    destruct Hs as (id & Hid & ->).
    destruct (Hscene nm eq_refl) as (id' & Hid' & Hne).
    cbn. apply Z.eqb_neq. congruence. }
  destruct (async_turn_on_run r kwargs w)
    as (_ & [(_ & Hc & Hwhy)|(sid & pilot & Hct & Hs & Hpl & Hres & Hc)]).
  - exists []. rewrite app_nil_r. split; [exact Hc|]. split.
    + intros x [].
    + intros Hn Hscene.
      destruct Hwhy as [H0|[(nm & e & He & Hid & _)|(sid & e & Hs & Hpl & Hres)]].
      * contradiction.
      * destruct (Hscene nm He) as (id & Hid' & _). congruence.
      * unfold turn_on_pilot, PilotBuilder_of in Hpl.
        rewrite (Hplain Hscene sid Hs), Hlocal in Hpl. split.
        -- intros Hacc. rewrite Hacc in Hpl. discriminate.
        -- intros e' Hrej. rewrite Hrej in Hpl. injection Hpl as ->.
           split; [reflexivity|exact Hres].
  - rewrite Hlocal in Hpl. exists [CallTurnOn pilot].
    split; [exact Hc|]. split.
    + intros x [<-|[]]. exists pilot. split; [reflexivity|].
      unfold turn_on_pilot, PilotBuilder_of in Hpl.
      destruct (is_rhythm sid); [injection Hpl as <-; auto|].
      destruct (PilotBuilder_raises _ _ _ _); [discriminate|].
      injection Hpl as <-. auto.
    + intros _ Hscene.
      unfold turn_on_pilot, PilotBuilder_of in Hpl.
      rewrite (Hplain Hscene sid Hs) in Hpl. split.
      * intros Hacc. rewrite Hacc in Hpl. injection Hpl as <-.
        eexists. split; reflexivity.
      * intros e Hrej. rewrite Hrej in Hpl. discriminate.
Qed.

(** ** Failures of client calls *)

(** C3 (amended): a timeout of the status fetch, of the descriptor fetch or
    of the identifier fetch is caught in that fetch, which returns normally:
    the status fetch leaves the bulb unavailable and off, the two others
    leave the object as it was.  Any other failure [e] of one of these
    fetches (a connection failure) is raised to the caller, the object left
    as it was.  The turn-on and turn-off commands have no handler: whatever
    the client answers to the command call is the result of the command, so
    a call that fails with [e] raises [e] to the caller (a turn-on that does
    not get as far as the call has raised already). *)
Theorem C3_timeouts_caught_by_fetches_only
    (r : Responses) (kwargs : Kwargs) (w : World) (e : exn) :
  (r_updateState r = Raise WizLightTimeOutError ->
     fst (update_state r w) = Ok tt /\
     self (snd (update_state r w))
     = set_available (Some false) (set_state (Some false) (self w))) /\
  (_bulbtype (self w) = None ->
   r_get_bulbtype r = Raise WizLightTimeOutError ->
     get_bulb_type r w
     = (Ok tt, {| self := self w;
                  trace := trace w ++
                    [Call CallGetBulbtype;
                     Log DEBUG (Template "[wizlight %s] Bulbtype update failed - Timeout")] |})) /\
  (r_getMac r = Raise WizLightTimeOutError ->
     get_mac r w
     = (Ok tt, {| self := self w;
                  trace := trace w ++
                    [Call CallGetMac;
                     Log DEBUG (Template "[wizlight %s] Mac update failed - Timeout")] |})) /\
  (e <> WizLightTimeOutError ->
     (r_updateState r = Raise e ->
        update_state r w
        = (Raise e, {| self := self w;
                       trace := trace w ++ [Call CallUpdateState] |})) /\
     (_bulbtype (self w) = None -> r_get_bulbtype r = Raise e ->
        get_bulb_type r w
        = (Raise e, {| self := self w;
                       trace := trace w ++ [Call CallGetBulbtype] |})) /\
     (r_getMac r = Raise e ->
        get_mac r w
        = (Raise e, {| self := self w;
                       trace := trace w ++ [Call CallGetMac] |}))) /\
  async_turn_off r w
  = (r_turn_off r, {| self := self w; trace := trace w ++ [Call CallTurnOff] |}) /\
  (r_turn_off r = Raise e -> fst (async_turn_off r w) = Raise e) /\
  self (snd (async_turn_on r kwargs w)) = self w /\
  exists sent,
    calls_of (trace (snd (async_turn_on r kwargs w)))
    = calls_of (trace w) ++ sent /\
    ((sent = [] /\ is_raise (fst (async_turn_on r kwargs w)) = true)
     \/ exists pilot,
          sent = [CallTurnOn pilot] /\
          fst (async_turn_on r kwargs w) = r_turn_on r pilot /\
          (r_turn_on r pilot = Raise e ->
           fst (async_turn_on r kwargs w) = Raise e)).
Proof.
  assert (Hoff : async_turn_off r w
            = (r_turn_off r,
               {| self := self w; trace := trace w ++ [Call CallTurnOff] |})).
  { destruct w; unfold async_turn_off; unfold_monad; cbn.
    destruct (r_turn_off r); reflexivity. }
  split; [|split; [|split; [|split; [|split; [|split; [|split]]]]]].
  - intros Hus. destruct r as [us bt mac on off]; cbn in Hus; subst us.
    open_world w. unfold_cycle; cbn. split; reflexivity.
  - intros Hnone Hbt. destruct r as [us bt mac on off]; cbn in Hbt; subst bt.
    open_entity w cached. subst cached. unfold_cycle; cbn.
    rewrite <- app_assoc. reflexivity.
  - intros Hmac. destruct r as [us bt mac on off]; cbn in Hmac; subst mac.
    open_world w. unfold_cycle; cbn. rewrite <- app_assoc. reflexivity.
  - intros Hne. split; [|split].
    + intros Hus. destruct r as [us bt mac on off]; cbn in Hus; subst us.
      open_world w. unfold_cycle; cbn. destruct e; try congruence; reflexivity.
    + intros Hnone Hbt. destruct r as [us bt mac on off]; cbn in Hbt; subst bt.
      open_entity w cached. subst cached. unfold_cycle; cbn.
      destruct e; try congruence; reflexivity.
    + intros Hmac. destruct r as [us bt mac on off]; cbn in Hmac; subst mac.
      open_world w. unfold_cycle; cbn. destruct e; try congruence; reflexivity.
  - exact Hoff.
  - intros He. rewrite Hoff. exact He.
  - apply async_turn_on_run.
  - destruct (async_turn_on_run r kwargs w)
      as (_ & [(Hr & Hc & _)|(sid & pilot & _ & _ & _ & Hres & Hc)]).
    + exists []. rewrite app_nil_r. split; [exact Hc|]. left. auto.
    + exists [CallTurnOn pilot]. split; [exact Hc|]. right.
      exists pilot. repeat split; [exact Hres|].
      intros He. rewrite Hres. exact He.
Qed.

(** ** Feature and range reporting *)

(** With a descriptor whose feature lookup reports an unknown bulb, the
    feature query falls back to the full feature set. *)
Lemma featuremap_unknown_bulb (w : World) (bt : BulbType) :
  _bulbtype (self w) = Some bt ->
  features bt = Raise WizLightNotKnownBulb ->
  fst (supported_features w) = Ok SUPPORT_FEATURES_RGB.
Proof.
  intros H Hf. open_entity w cached. subst. unfold_adapter; cbn.
  rewrite Hf; cbn. reflexivity.
Qed.

(** The handlers of the two kelvin maps return the numbers 6500 and 2500
    themselves; they are reached only through a cached descriptor whose
    kelvin-range read raises [WizLightNotKnownBulb]. *)
Lemma kelvin_fallback_unknown_bulb (w : World) (bt : BulbType) :
  _bulbtype (self w) = Some bt ->
  kelvin_range bt = Raise WizLightNotKnownBulb ->
  fst (min_mireds w) = Ok 6500 /\ fst (max_mireds w) = Ok 2500.
Proof.
  intros H Hk. open_entity w cached. subst. unfold_adapter; cbn.
  rewrite Hk; cbn. split; reflexivity.
Qed.



(** ** Fetches of the poll cycle *)

(** A poll cycle whose three fetches each answer or time out: it calls the
    status fetch first, the descriptor fetch only when no descriptor is
    cached, and the identifier fetch; it raises only if the refresh does. *)
Lemma async_update_run (r : Responses) (w : World) :
  ok_or_timeout (r_updateState r) = true ->
  ok_or_timeout (r_get_bulbtype r) = true ->
  ok_or_timeout (r_getMac r) = true ->
  let w' := snd (async_update r w) in
  fst (async_update r w)
  = match r_updateState r with
    | Ok (Some p, Some true) => refresh_result p
    | _ => Ok tt
    end /\
  calls_of (trace w')
  = calls_of (trace w)
    ++ CallUpdateState
       :: match _bulbtype (self w) with
          | None => [CallGetBulbtype]
          | Some _ => []
          end
    ++ [CallGetMac] /\
  _bulbtype (self w')
  = match _bulbtype (self w), r_get_bulbtype r with
    | Some cached, _ => Some cached
    | None, Ok bt => Some bt
    | None, Raise _ => None
    end /\
  _mac (self w')
  = match r_getMac r with
    | Ok m => m
    | Raise _ => _mac (self w)
    end /\
  _available (self w') = _available (self (snd (update_state r w))) /\
  _name (self w') = _name (self w).
Proof.
  intros Hus Hbt Hmac. destruct r as [us bt mac on off].
  open_entity w cached. unfold_cycle.
  destruct us as [[[p|] [[|]|]]|[]]; cbn in Hus; try discriminate;
    destruct cached as [cached|];
    destruct bt as [b|[]]; cbn in Hbt; try discriminate;
    destruct mac as [m|[]]; cbn in Hmac; try discriminate; cbn.
  all: try match goal with
    | |- context [refresh_derived ?w1] =>
        let lg := fresh "lg" in let Hr := fresh "Hr" in
        let Hc := fresh "Hc" in
        destruct (refresh_derived_run w1 p eq_refl) as (lg & Hr & Hc);
        rewrite Hr; clear Hr; cbn [fst snd self trace];
        match goal with |- context [refreshed ?q ?b1] =>
          destruct (refreshed_frame q b1) as (_ & _ & _ & -> & -> & -> & ->)
        end
    end.
  all: cbn; rewrite ?calls_of_app; cbn;
    rewrite ?Hc, ?app_nil_r, <- ?app_assoc; cbn;
    repeat split; reflexivity.
Qed.

End Properties.

(** * Concrete runs *)

(** A first poll of a fresh entity with every call answered: the bulb is
    available and on, and each display attribute is the converted report. *)
Example first_poll_all_ok :
  let b := self (snd (async_update Demo.all_ok
                        (Demo.world_of (WizBulb_init (Demo.handle None) "desk")))) in
  _available b = Some true /\ _state b = Some true /\
  _brightness b = Some 128 /\ _temperature b = Some 370 /\
  _hscolor b = Some (255, 0) /\ _effect b = Some "Ocean" /\
  _bulbtype b = Some Demo.known_bulb /\ _mac b = Some "a8bb50aabbcc" /\
  _scenes b = ["Ocean"; "Romance"; "Sunset"; "Party"; "Fireplace"; "Cozy"; "Rhythm"].
Proof.
  cbn zeta. repeat split; reflexivity.
Qed.

(** C1 at a bulb that is on with every attribute cached, all calls timing
    out. *)
Lemma C1_witness :
  let w := Demo.world_of (Demo.lit (Some Demo.reports_ok) None) in
  let w' := snd (async_update Demo.all_timeout w) in
  _available (self w') = Some false /\
  _state (self w') = Some false /\
  _brightness (self w') = Some 100 /\
  _hscolor (self w') = Some (30, 80) /\
  _temperature (self w') = Some 370 /\
  _effect (self w') = Some "Cozy".
Proof.
  apply (C1_failed_poll_forces_unavailable_keeps_display Demo.all_timeout
           (Demo.world_of (Demo.lit (Some Demo.reports_ok) None))).
  left; reflexivity.
Defined.

(** C2 as stated fails: with 100 cached, a reported brightness of 300 does
    not leave the stored brightness at its previous value. *)
Lemma C2_out_of_range_brightness_not_kept :
  let p := Demo.status_of (PyInt 300) None None in
  let w := Demo.world_of (Demo.lit (Some p) None) in
  get_brightness p = Ok (PyInt 300) /\
  (300 < 0 \/ 255 < 300) /\
  _brightness (self w) = Some 100 /\
  _brightness (self (snd (update_brightness w))) <> _brightness (self w).
Proof.
  cbn. repeat split; [right; reflexivity | discriminate].
Defined.

Lemma C2_witness :
  let p := Demo.status_of (PyInt 300) None None in
  let w := Demo.world_of (Demo.lit (Some p) None) in
  _brightness (self (snd (update_brightness w))) = None.
Proof.
  cbn zeta.
  destruct (C2_brightness_stored_in_range_cleared_outside
              (Demo.world_of (Demo.lit (Some (Demo.status_of (PyInt 300) None None)) None))
              (Demo.status_of (PyInt 300) None None) 300 eq_refl eq_refl)
    as (_ & _ & Hout & _).
  apply Hout. right; reflexivity.
Defined.

(** C3 as stated fails: a timeout of the turn-off command reaches the
    caller. *)
Lemma C3_turn_off_timeout_propagates :
  let w := Demo.world_of (Demo.lit (Some Demo.reports_ok) None) in
  r_turn_off Demo.all_timeout = Raise WizLightTimeOutError /\
  fst (async_turn_off Demo.all_timeout w) = Raise WizLightTimeOutError.
Proof.
  split; reflexivity.
Defined.

(** C3 at a bulb without a descriptor, every call timing out: the three
    fetches return, both commands raise the timeout, the turn-on after its
    one command was sent. *)
Lemma C3_witness :
  let w := Demo.world_of (Demo.lit (Some Demo.reports_ok) None) in
  let kwargs := Demo.request None None None in
  fst (update_state Demo.all_timeout w) = Ok tt /\
  fst (get_bulb_type Demo.all_timeout w) = Ok tt /\
  fst (get_mac Demo.all_timeout w) = Ok tt /\
  fst (async_turn_off Demo.all_timeout w) = Raise WizLightTimeOutError /\
  exists pilot,
    calls_of (trace (snd (async_turn_on Demo.all_timeout kwargs w)))
    = calls_of (trace w) ++ [CallTurnOn pilot] /\
    fst (async_turn_on Demo.all_timeout kwargs w) = Raise WizLightTimeOutError.
Proof.
  cbn zeta.
  destruct (C3_timeouts_caught_by_fetches_only Demo.all_timeout
              (Demo.request None None None)
              (Demo.world_of (Demo.lit (Some Demo.reports_ok) None))
              WizLightTimeOutError)
    as (Hus & Hbt & Hmac & _ & _ & Hoff & _ & (sent & Hc & Hon)).
  split; [exact (proj1 (Hus eq_refl))|].
  split; [rewrite (Hbt eq_refl eq_refl); reflexivity|].
  split; [rewrite (Hmac eq_refl); reflexivity|].
  split; [exact (Hoff eq_refl)|].
  destruct Hon as [(-> & _)|(pilot & -> & _ & Hr)].
  - vm_compute in Hc. discriminate Hc.
  - exists pilot. split; [exact Hc|exact (Hr eq_refl)].
Defined.


(** C5 at a bulb with the identifier and the descriptor both cached, in a
    poll cycle whose identifier fetch answers with no identifier: the cycle
    does not fetch the descriptor, but it fetches the identifier again and
    the cached identifier is lost. *)
Theorem C5_cached_identifier_fetched_again_and_lost :
  let w := Demo.world_of (Demo.lit (Some Demo.reports_ok) (Some Demo.known_bulb)) in
  let w' := snd (async_update Demo.identifier_unanswered w) in
  _mac (self w) = Some "a8bb50aabbcc" /\
  _bulbtype (self w) = Some Demo.known_bulb /\
  fst (async_update Demo.identifier_unanswered w) = Ok tt /\
  calls_of (trace w') = [CallUpdateState; CallGetMac] /\
  _bulbtype (self w') = Some Demo.known_bulb /\
  _mac (self w') = None.
Proof.
  cbn zeta. repeat split; reflexivity.
Qed.

Lemma C6_witness :
  let w := Demo.world_of (Demo.lit (Some Demo.reports_ok) None) in
  let kwargs := Demo.request (Some (1, 2, 3)) (Some (40, 50)) (Some "Rhythm") in
  exists sent,
    calls_of (trace (snd (async_turn_on Demo.all_ok kwargs w)))
    = calls_of (trace w) ++ sent /\
    (forall c, In c sent ->
       exists pilot, c = CallTurnOn pilot /\
         pilot_brightness pilot = None /\ pilot_rgb pilot = None /\
         pilot_colortemp pilot = None /\ pilot_scene pilot = None) /\
    (ATTR_COLOR_TEMP kwargs <> Some 0 ->
       sent = [CallTurnOn PilotBuilder_empty]).
Proof.
  cbn zeta.
  apply (C6_rhythm_sends_bare_command Demo.all_ok
           (Demo.request (Some (1, 2, 3)) (Some (40, 50)) (Some "Rhythm"))
           (Demo.world_of (Demo.lit (Some Demo.reports_ok) None))
           "Rhythm" eq_refl eq_refl).
Defined.

Lemma C7_witness :
  let w := Demo.world_of (Demo.lit (Some Demo.reports_ok) None) in
  let kwargs := Demo.request (Some (1, 2, 3)) (Some (40, 50)) (Some "Ocean") in
  turn_on_rgb kwargs = Some (40, 50, 0) /\
  exists pilot,
    calls_of (trace (snd (async_turn_on Demo.all_ok kwargs w)))
    = calls_of (trace w) ++ [CallTurnOn pilot] /\
    pilot_rgb pilot = Some (40, 50, 0).
Proof.
  cbn zeta.
  destruct (C7_hs_color_takes_precedence_over_rgb Demo.all_ok
              (Demo.request (Some (1, 2, 3)) (Some (40, 50)) (Some "Ocean"))
              (Demo.world_of (Demo.lit (Some Demo.reports_ok) None))
              40 50 (1, 2, 3) eq_refl eq_refl)
    as (Hlocal & _ & sent & Hc & _ & Hone).
  split; [exact Hlocal|].
  destruct Hone as ((pilot & -> & Hrgb) & _).
  - discriminate.
  - intros nm H. injection H as <-. exists 1. split; [reflexivity|lia].
  - intros ct sc. reflexivity.
  - exists pilot. split; [exact Hc|exact Hrgb].
Defined.

Lemma C8_witness :
  let p := Demo.status_of (PyInt 128) (Some 0) None in
  let w := Demo.world_of (Demo.lit (Some p) None) in
  update_temperature w = (Ok tt, w) /\
  _temperature (self (snd (refresh_derived w))) = Some 370.
Proof.
  cbn zeta.
  apply (C8_absent_or_zero_colortemp_keeps_mired
           (Demo.world_of (Demo.lit (Some (Demo.status_of (PyInt 128) (Some 0) None)) None))
           (Demo.status_of (PyInt 128) (Some 0) None) eq_refl).
  right; reflexivity.
Defined.

Lemma C9_witness :
  let p := Demo.status_of (PyInt 128) (Some 2700) (Some (None, None, None)) in
  let w := Demo.world_of (Demo.lit (Some p) None) in
  update_color w = (Ok tt, w) /\
  _hscolor (self (snd (refresh_derived w))) = Some (30, 80).
Proof.
  cbn zeta.
  apply (C9_absent_red_keeps_hscolor
           (Demo.world_of (Demo.lit (Some (Demo.status_of (PyInt 128) (Some 2700)
                                            (Some (None, None, None)))) None))
           (Demo.status_of (PyInt 128) (Some 2700) (Some (None, None, None)))
           eq_refl).
  right. exists None, None. reflexivity.
Defined.

(** C10 as stated fails: after a brightness that cannot be converted, the
    refresh is not skipped.  In the same cycle the temperature and the
    effect are still refreshed (370 to 250, "Cozy" to "Ocean"), and the next
    cycle refreshes the brightness (100 to 128) with the bulb on again. *)
Lemma C10_later_refreshes_not_skipped :
  let w := Demo.world_of (Demo.lit (Some Demo.reports_ok) None) in
  let w1 := snd (async_update Demo.odd_brightness w) in
  let w2 := snd (async_update Demo.all_ok w1) in
  py_int PyObject = Raise TypeError /\
  _state (self w1) = None /\
  _brightness (self w) = Some 100 /\ _brightness (self w1) = Some 100 /\
  _temperature (self w) = Some 370 /\ _temperature (self w1) = Some 250 /\
  _effect (self w) = Some "Cozy" /\ _effect (self w1) = Some "Ocean" /\
  _state (self w2) = Some true /\ _brightness (self w2) = Some 128.
Proof.
  cbn zeta. repeat split; reflexivity.
Defined.

Lemma C10_witness :
  let w := Demo.world_of (Demo.lit (Some Demo.reports_odd_brightness) None) in
  let w' := snd (refresh_derived w) in
  update_brightness w
  = (Ok tt, {| self := set_state None (self w);
               trace := trace w ++ [Log ERROR (ExnMsg TypeError)] |}) /\
  _state (self w') = None /\
  _brightness (self w') = Some 100 /\
  _effect (self w') = Some "Ocean".
Proof.
  cbn zeta.
  destruct (C10_unconvertible_brightness_resets_state_refresh_goes_on
              (Demo.world_of (Demo.lit (Some Demo.reports_odd_brightness) None))
              Demo.reports_odd_brightness PyObject TypeError
              eq_refl eq_refl)
    as (Hstep & Hrest & _).
  - discriminate.
  - reflexivity.
  - split; [exact Hstep|].
    destruct (Hrest _ _ _ eq_refl eq_refl eq_refl)
      as (_ & Hs & Hb & _ & _ & He & _).
    split; [exact Hs|]. split; [exact Hb|exact He].
Defined.

(** * Further properties of the adapter *)

Section PollCycle.
Context {ext : Externals}.

(** Every way a poll cycle can end.  Either the status fetch raised
    something other than a timeout and nothing at all was assigned; or no
    refresh ran and the display attributes are the cached ones; or the
    status fetch returned a status object with the bulb on, the two other
    fetches answered or timed out, and the cycle ends as the refresh does. *)
Lemma async_update_cases (r : Responses) (w : World) :
  let res := async_update r w in
  let b := self w in
  let b' := self (snd res) in
  (exists e, r_updateState r = Raise e /\ e <> WizLightTimeOutError /\
     res = (Raise e, {| self := b; trace := trace w ++ [Call CallUpdateState] |}))
  \/
  (_brightness b' = _brightness b /\ _temperature b' = _temperature b /\
   _hscolor b' = _hscolor b /\ _effect b' = _effect b /\
   _scenes b' = _scenes b /\
   (_available b' = Some false /\ _state b' = Some false
    \/ exists p st, r_updateState r = Ok (Some p, st) /\
         _available b' = Some true /\ _state b' = st) /\
   (fst res = Ok tt
    \/ exists e, e <> WizLightTimeOutError /\ fst res = Raise e /\
         (_bulbtype b = None /\ r_get_bulbtype r = Raise e
          \/ r_getMac r = Raise e)))
  \/
  (exists p, r_updateState r = Ok (Some p, Some true) /\
     fst res = refresh_result p /\
     _available b' = Some true /\
     _state b' = state_after p (Some true) /\
     _brightness b' = brightness_after p (_brightness b)).
Proof.
  destruct r as [us bt mac on off]. open_entity w cached. unfold_cycle.
  destruct us as [[[p|] [[|]|]]|e]; cbn.
  all: try (destruct e; cbn;
            try (left; eexists; split; [reflexivity|];
                 split; [discriminate|reflexivity])).
  all: destruct cached as [cached|]; cbn;
    try (destruct bt as [bt|[]]; cbn);
    destruct mac as [m|[]]; cbn.
  all: try match goal with
    | |- context [refresh_derived ?w1] =>
        let lg := fresh "lg" in let Hr := fresh "Hr" in
        let Hc := fresh "Hc" in
        destruct (refresh_derived_run w1 p eq_refl) as (lg & Hr & Hc);
        rewrite Hr; clear Hr; cbn [fst snd self];
        right; right; exists p;
        match goal with |- context [refreshed ?q ?b1] =>
          destruct (refreshed_frame q b1) as (-> & -> & _ & -> & _)
        end;
        repeat split; reflexivity
    end.
  all: right; left.
  all: split; [reflexivity|]; split; [reflexivity|]; split; [reflexivity|];
    split; [reflexivity|]; split; [reflexivity|]; split.
  all: try (left; split; reflexivity).
  all: try (right; eexists; eexists; repeat split; reflexivity).
  all: try (left; reflexivity).
  all: right; eexists; (split; [|split; [reflexivity|]]).
  all: try discriminate.
  all: try (left; split; reflexivity).
  all: right; reflexivity.
Qed.

(** A refresh raises only what one of the four getters raised. *)
Lemma refresh_result_raise (p : PilotParser) (e : exn) :
  refresh_result p = Raise e ->
  get_brightness p = Raise e \/ get_colortemp p = Raise e
  \/ get_rgb p = Raise e \/ get_scene p = Raise e.
Proof.
  unfold refresh_result.
  destruct (get_brightness p); [|intros [= ->]; auto].
  destruct (get_colortemp p); [|intros [= ->]; auto].
  destruct (get_rgb p); [|intros [= ->]; auto].
  destruct (get_scene p); [discriminate|intros [= ->]; auto].
Qed.

End PollCycle.

Section PollOutcomes.
Context {ext : Externals}.

(** X1: a poll cycle whose status fetch returns a status object with the
    bulb on, whose two other fetches answer or time out, whose four status
    getters return, and whose reported brightness is an integer within
    0..255, returns with the bulb available and on, the brightness stored,
    the effect set to the reported scene and the scene list equal to the
    names of the scene table in table order, whatever was cached before:
    one good cycle repairs a failed one. *)
Theorem poll_success_refreshes_from_status
    (r : Responses) (w : World) (p : PilotParser) (n : Z)
    (ct : option Z) (rgb : option (option Z * option Z * option Z))
    (scene : option string) :
  r_updateState r = Ok (Some p, Some true) ->
  ok_or_timeout (r_get_bulbtype r) = true ->
  ok_or_timeout (r_getMac r) = true ->
  get_brightness p = Ok (PyInt n) ->
  0 <= n <= 255 ->
  get_colortemp p = Ok ct ->
  get_rgb p = Ok rgb ->
  get_scene p = Ok scene ->
  let b' := self (snd (async_update r w)) in
  fst (async_update r w) = Ok tt /\
  _available b' = Some true /\
  _state b' = Some true /\
  _brightness b' = Some n /\
  _effect b' = scene /\
  _scenes b' = map snd SCENES.
Proof.
  intros Hus Hbt Hmac Hb Hn Hct Hrgb Hsc.
  assert (Hin : (0 <=? n) && (n <=? 255) = true).
  { apply andb_true_iff; split; apply Z.leb_le; lia. }
  destruct r as [us bt mac on off]; cbn in *; subst us.
  open_entity w cached. unfold_cycle.
  destruct cached as [cached|]; cbn;
    try (destruct bt as [bt|[]]; cbn in *; try discriminate);
    destruct mac as [m|[]]; cbn in *; try discriminate.
  all: match goal with
    | |- context [refresh_derived ?w1] =>
        let lg := fresh "lg" in let Hr := fresh "Hr" in
        destruct (refresh_derived_run w1 p eq_refl) as (lg & Hr & _);
        rewrite Hr; clear Hr; cbn
    end.
  all: unfold refresh_result, refreshed, state_after, brightness_after;
    rewrite Hb, Hct, Hrgb, Hsc, Hin.
  all: repeat split; reflexivity.
Qed.

(** X2: when the status fetch returns a status object but the bulb is not
    reported on (off, or no on/off value), the cycle marks the bulb
    available, stores the reported on/off value, and runs no refresh: the
    cached brightness, temperature, colour, effect and scene list stay as
    they were, whatever the two other fetches do. *)
Theorem poll_bulb_not_on_skips_refresh
    (r : Responses) (w : World) (p : PilotParser) (st : option bool) :
  r_updateState r = Ok (Some p, st) ->
  st <> Some true ->
  let b := self w in
  let b' := self (snd (async_update r w)) in
  _available b' = Some true /\
  _state b' = st /\
  _brightness b' = _brightness b /\
  _temperature b' = _temperature b /\
  _hscolor b' = _hscolor b /\
  _effect b' = _effect b /\
  _scenes b' = _scenes b.
Proof.
  intros Hus Hst.
  destruct r as [us bt mac on off]; cbn in *; subst us.
  open_entity w cached. unfold_cycle.
  destruct st as [[|]|]; [congruence| |]; cbn.
  all: destruct cached as [cached|]; cbn;
    try (destruct bt as [bt|[]]; cbn);
    destruct mac as [m|[]]; cbn; repeat split.
Qed.

(** X3: when the status fetch raises anything but a timeout (a connection
    failure), the cycle raises it at once: no attribute is assigned, not
    even availability, and no other client call is made. *)
Theorem poll_status_failure_changes_nothing
    (r : Responses) (w : World) (e : exn) :
  r_updateState r = Raise e ->
  e <> WizLightTimeOutError ->
  async_update r w
  = (Raise e, {| self := self w; trace := trace w ++ [Call CallUpdateState] |}).
Proof.
  intros Hus He.
  destruct r as [us bt mac on off]; cbn in *; subst us.
  destruct w as [b tr]. unfold_cycle.
  destruct e; try congruence; reflexivity.
Qed.

(** X4: when no descriptor is cached and the descriptor fetch raises
    anything but a timeout (an unknown bulb reported by the client, a
    connection failure), the cycle raises it after the status was handled:
    the object is left exactly as [update_state] left it, so the identifier
    is not fetched and no refresh runs even if the bulb is on. *)
Theorem poll_descriptor_failure_aborts_cycle
    (r : Responses) (w : World) (e : exn) :
  ok_or_timeout (r_updateState r) = true ->
  _bulbtype (self w) = None ->
  r_get_bulbtype r = Raise e ->
  e <> WizLightTimeOutError ->
  let w' := snd (async_update r w) in
  fst (async_update r w) = Raise e /\
  self w' = self (snd (update_state r w)) /\
  calls_of (trace w') = calls_of (trace w) ++ [CallUpdateState; CallGetBulbtype].
Proof.
  intros Hus Hnone Hbt He.
  destruct r as [us bt mac on off]; cbn in *; subst bt.
  open_entity w cached. subst. unfold_cycle.
  destruct us as [[[p|] st]|[]]; cbn in Hus; try discriminate; cbn.
  all: destruct e; try congruence; cbn.
  all: rewrite !calls_of_app; cbn; rewrite ?app_nil_r, <- ?app_assoc; cbn.
  all: repeat split; reflexivity.
Qed.

(** X5: a poll cycle raises only what one of its three fetches raised (and
    then never a timeout) or what one of the four getters of the fetched
    status object raised: the conversions and checks of the refresh steps
    themselves never make the cycle fail. *)
Theorem poll_raises_only_what_a_client_call_raised
    (r : Responses) (w : World) (e : exn) :
  fst (async_update r w) = Raise e ->
  (e <> WizLightTimeOutError /\
   (r_updateState r = Raise e
    \/ (_bulbtype (self w) = None /\ r_get_bulbtype r = Raise e)
    \/ r_getMac r = Raise e))
  \/ (exists p, r_updateState r = Ok (Some p, Some true) /\
        (get_brightness p = Raise e \/ get_colortemp p = Raise e
         \/ get_rgb p = Raise e \/ get_scene p = Raise e)).
Proof.
  intros Hraise.
  destruct (async_update_cases r w)
    as [(e' & He' & Hne & Hres)
       |[(_ & _ & _ & _ & _ & _ & [Hok|(e' & Hne & Hres & Hwhy)])
        |(p & Hp & Hres & _)]].
  - rewrite Hres in Hraise; cbn in Hraise. injection Hraise as <-. auto.
  - congruence.
  - rewrite Hres in Hraise. injection Hraise as <-. auto.
  - right. exists p. split; [exact Hp|].
    apply refresh_result_raise. congruence.
Qed.

(** X6: a cached brightness that is absent or within 0..255 stays so through
    every poll cycle and every command, whatever the device answers. *)
Theorem brightness_in_range_preserved
    (r : Responses) (kwargs : Kwargs) (w : World) :
  brightness_in_range (self w) ->
  brightness_in_range (self (snd (async_update r w))) /\
  brightness_in_range (self (snd (async_turn_on r kwargs w))) /\
  brightness_in_range (self (snd (async_turn_off r w))).
Proof.
  intros Hinv. split; [|split].
  - unfold brightness_in_range in *.
    destruct (async_update_cases r w)
      as [(e & _ & _ & Hres)
         |[(Hb & _)|(p & _ & _ & _ & _ & Hb)]].
    + rewrite Hres. exact Hinv.
    + rewrite Hb. exact Hinv.
    + rewrite Hb. unfold brightness_after.
      destruct (get_brightness p) as [[|n|]|e]; try exact Hinv.
      destruct ((0 <=? n) && (n <=? 255)) eqn:E; [|exact I].
      apply andb_true_iff in E as [E1 E2].
      apply Z.leb_le in E1. apply Z.leb_le in E2. lia.
  - destruct (async_turn_on_run r kwargs w) as (Hself & _).
    rewrite Hself. exact Hinv.
  - destruct w; unfold async_turn_off; unfold_monad; cbn.
    destruct (r_turn_off r); exact Hinv.
Qed.

(** X7: once a bulb marked unavailable is marked off, it stays so through
    every poll cycle and every command: the entity never shows an
    unavailable bulb as on. *)
Theorem unavailable_is_off_preserved
    (r : Responses) (kwargs : Kwargs) (w : World) :
  unavailable_is_off (self w) ->
  unavailable_is_off (self (snd (async_update r w))) /\
  unavailable_is_off (self (snd (async_turn_on r kwargs w))) /\
  unavailable_is_off (self (snd (async_turn_off r w))).
Proof.
  intros Hinv. split; [|split].
  - unfold unavailable_is_off in *.
    destruct (async_update_cases r w)
      as [(e & _ & _ & Hres)
         |[(_ & _ & _ & _ & _ & [(Ha & Hs)|(p & st & _ & Ha & Hs)] & _)
          |(p & _ & _ & Ha & _)]].
    + rewrite Hres. exact Hinv.
    + intros _. exact Hs.
    + rewrite Ha. discriminate.
    + rewrite Ha. discriminate.
  - destruct (async_turn_on_run r kwargs w) as (Hself & _).
    rewrite Hself. exact Hinv.
  - destruct w; unfold async_turn_off; unfold_monad; cbn.
    destruct (r_turn_off r); exact Hinv.
Qed.

(** X20: in a poll cycle whose three fetches each answer or time out, the
    status fetch is the first client call and the capability descriptor is
    fetched only if none is cached: a cached descriptor is kept and not
    fetched again.  A timeout of the descriptor fetch leaves no descriptor
    cached, and the next such cycle fetches it again. *)
Theorem descriptor_fetched_only_when_absent
    (r next : Responses) (w : World) :
  ok_or_timeout (r_updateState r) = true ->
  ok_or_timeout (r_get_bulbtype r) = true ->
  ok_or_timeout (r_getMac r) = true ->
  ok_or_timeout (r_updateState next) = true ->
  ok_or_timeout (r_get_bulbtype next) = true ->
  ok_or_timeout (r_getMac next) = true ->
  let w' := snd (async_update r w) in
  let w'' := snd (async_update next w') in
  calls_of (trace w')
  = calls_of (trace w)
    ++ CallUpdateState
       :: match _bulbtype (self w) with
          | None => [CallGetBulbtype]
          | Some _ => []
          end
    ++ [CallGetMac] /\
  (forall cached, _bulbtype (self w) = Some cached ->
     _bulbtype (self w') = Some cached) /\
  (forall bt, _bulbtype (self w) = None -> r_get_bulbtype r = Ok bt ->
     _bulbtype (self w') = Some bt /\
     calls_of (trace w'')
     = calls_of (trace w') ++ [CallUpdateState; CallGetMac]) /\
  (_bulbtype (self w) = None ->
   r_get_bulbtype r = Raise WizLightTimeOutError ->
     _bulbtype (self w') = None /\
     calls_of (trace w'')
     = calls_of (trace w') ++ [CallUpdateState; CallGetBulbtype; CallGetMac]).
Proof.
  intros Hus Hbt Hmac Hus' Hbt' Hmac'. cbn zeta.
  destruct (async_update_run r w Hus Hbt Hmac)
    as (_ & Hcalls & Hb & _).
  destruct (async_update_run next (snd (async_update r w)) Hus' Hbt' Hmac')
    as (_ & Hcalls2 & _).
  split; [exact Hcalls|]. split.
  { intros cached Hc. rewrite Hb, Hc. reflexivity. }
  split.
  { intros bt Hnone Hok. rewrite Hnone, Hok in Hb. split; [exact Hb|].
    rewrite Hcalls2, Hb. reflexivity. }
  intros Hnone Ht. rewrite Hnone, Ht in Hb. split; [exact Hb|].
  rewrite Hcalls2, Hb. reflexivity.
Qed.

(** X22: a getter of the status object that raises is not caught.  In a
    poll cycle whose status fetch returns a status object with the bulb on
    and whose two other fetches answer or time out: if the brightness getter
    raises, the cycle raises the same exception and no display attribute is
    assigned; if the three first getters return and the scene getter raises,
    the cycle raises the same exception after brightness, temperature and
    colour were refreshed, and the effect and the scene list stay as
    cached.  Either way the bulb is marked available. *)
Theorem poll_getter_failure_aborts_refresh
    (r : Responses) (w : World) (p : PilotParser) (e : exn) :
  r_updateState r = Ok (Some p, Some true) ->
  ok_or_timeout (r_get_bulbtype r) = true ->
  ok_or_timeout (r_getMac r) = true ->
  let b := self w in
  let b' := self (snd (async_update r w)) in
  _available b' = Some true /\
  (get_brightness p = Raise e ->
     fst (async_update r w) = Raise e /\
     _state b' = Some true /\
     _brightness b' = _brightness b /\
     _temperature b' = _temperature b /\
     _hscolor b' = _hscolor b /\
     _effect b' = _effect b /\
     _scenes b' = _scenes b) /\
  (forall v ct rgb,
     get_brightness p = Ok v -> get_colortemp p = Ok ct ->
     get_rgb p = Ok rgb -> get_scene p = Raise e ->
     fst (async_update r w) = Raise e /\
     _brightness b' = brightness_after p (_brightness b) /\
     _temperature b' = temperature_after p (_temperature b) /\
     _hscolor b' = hscolor_after p (_hscolor b) /\
     _effect b' = _effect b /\
     _scenes b' = _scenes b).
Proof.
  intros Hus Hbt Hmac.
  destruct r as [us bt mac on off]; cbn in *; subst us.
  open_entity w cached. unfold_cycle.
  destruct cached as [cached|]; cbn;
    try (destruct bt as [bt|[]]; cbn in *; try discriminate);
    destruct mac as [m|[]]; cbn in *; try discriminate.
  all: match goal with
    | |- context [refresh_derived ?w1] =>
        let lg := fresh "lg" in let Hr := fresh "Hr" in
        destruct (refresh_derived_run w1 p eq_refl) as (lg & Hr & _);
        rewrite Hr; clear Hr; cbn [fst snd self]
    end.
  all: split;
    [match goal with |- context [refreshed ?q ?b1] =>
       destruct (refreshed_frame q b1) as (_ & _ & _ & -> & _)
     end; reflexivity|].
  all: split;
    [intros Hb; unfold refresh_result, refreshed; rewrite Hb;
     repeat split
    |intros v ct rgb Hb Hct Hrgb Hsc;
     unfold refresh_result, refreshed; rewrite Hb, Hct, Hrgb, Hsc;
     repeat split].
Qed.

End PollOutcomes.

Section SceneList.
Context {ext : Externals}.

(** X8: [update_scene_list] rebuilds the scene list from the scene table:
    the result is the table's names in table order whatever the list held
    before, so repeated refreshes never accumulate entries; nothing else of
    the object changes. *)
Theorem scene_list_rebuilt_not_accumulated (w : World) :
  let w1 := snd (update_scene_list w) in
  let w2 := snd (update_scene_list w1) in
  fst (update_scene_list w) = Ok tt /\
  _scenes (self w1) = map snd SCENES /\
  List.length (_scenes (self w1)) = List.length SCENES /\
  w2 = w1 /\
  self w1 = set_scenes (map snd SCENES) (self w).
Proof.
  cbn zeta. rewrite !update_scene_list_eq. cbn.
  repeat split. apply length_map.
Qed.

(** Reading the listed positions of the scene list: every position within
    the list gives a name, the first position outside raises. *)
Lemma scenes_at_in_bounds (b : WizBulb) (keys : list Z) (w : World) :
  (forall key, In key keys -> 0 <= key < Z.of_nat (List.length (_scenes b))) ->
  scenes_at b keys w
  = (Ok (map (fun key => nth (Z.to_nat key) (_scenes b) "") keys), w).
Proof.
  induction keys as [|key keys IH]; intros Hin; [reflexivity|].
  cbn [scenes_at map]. unfold bind, scene_at.
  assert (Hk : (Z.to_nat key < List.length (_scenes b))%nat).
  { specialize (Hin key (or_introl eq_refl)). lia. }
  destruct (nth_error (_scenes b) (Z.to_nat key)) as [s|] eqn:E.
  - cbn. rewrite IH by (intros k Hk'; apply Hin; right; exact Hk').
    cbn. apply nth_error_nth with (d := "") in E. rewrite E. reflexivity.
  - apply nth_error_None in E. lia.
Qed.

Lemma scenes_at_out_of_bounds (b : WizBulb) (keys : list Z) (w : World) (key : Z) :
  In key keys ->
  Z.of_nat (List.length (_scenes b)) <= key ->
  scenes_at b keys w = (Raise IndexError, w).
Proof.
  intros Hin Hlen. induction keys as [|k keys IH]; [destruct Hin|].
  cbn [scenes_at]. unfold bind, scene_at.
  destruct (nth_error (_scenes b) (Z.to_nat k)) as [s|] eqn:E; cbn.
  - destruct Hin as [->|Hin].
    + assert (nth_error (_scenes b) (Z.to_nat key) = None)
        by (apply nth_error_None; lia).
      congruence.
    + rewrite (IH Hin). reflexivity.
  - reflexivity.
Qed.

(** X9: for the four bulb models with their own scene subset, [effect_list]
    reads position 31 of the cached scene list: with fewer than 32 names
    cached (before the first refresh the list is empty) it raises
    [IndexError]. *)
Theorem effect_list_special_model_needs_32_scenes (w : World) (bt : BulbType) :
  _bulbtype (self w) = Some bt ->
  is_special_model (name bt) ->
  (List.length (_scenes (self w)) < 32)%nat ->
  effect_list w = (Raise IndexError, w).
Proof.
  intros Hbt Hsp Hlen. unfold effect_list, bind, get_self. rewrite Hbt.
  assert (H31 : Z.of_nat (List.length (_scenes (self w))) <= 31) by lia.
  destruct Hsp as [-> | [-> | [-> | ->]]]; cbn [String.eqb Ascii.eqb Bool.eqb].
  all: apply scenes_at_out_of_bounds with (key := 31); [|exact H31].
  all: cbn; tauto.
Qed.

(** X10: what [effect_list] returns when it returns.  Without a descriptor
    it is empty; for a model without a subset of its own it is the whole
    cached list; for a special model with at least 32 names cached it is the
    names at that model's positions, in the listed order. *)
Theorem effect_list_by_model (w : World) :
  let at_ := fun key => nth (Z.to_nat key) (_scenes (self w)) "" in
  (_bulbtype (self w) = None -> effect_list w = (Ok [], w)) /\
  (forall bt, _bulbtype (self w) = Some bt ->
     ~ is_special_model (name bt) ->
     effect_list w = (Ok (_scenes (self w)), w)) /\
  (forall bt, _bulbtype (self w) = Some bt ->
     (32 <= List.length (_scenes (self w)))%nat ->
     (name bt = "ESP56_SHTW3_01" ->
      effect_list w = (Ok (map at_ [8; 9; 14; 15; 17; 28; 29; 31]), w)) /\
     (name bt = "ESP06_SHDW9_01" ->
      effect_list w = (Ok (map at_ [8; 9; 13; 28; 30; 29; 31]), w)) /\
     (name bt = "ESP06_SHDW1_01" ->
      effect_list w = (Ok (map at_ [8; 9; 13; 28; 29; 31]), w)) /\
     (name bt = "ESP15_SHTW1_01I" ->
      effect_list w
      = (Ok (map at_ [5; 8; 9; 10; 11; 12; 13; 14; 15; 17; 28; 30; 29; 31]), w))).
Proof.
  cbn zeta. split; [|split].
  - intros Hbt. unfold effect_list, bind, get_self. rewrite Hbt. reflexivity.
  - intros bt Hbt Hn. unfold effect_list, bind, get_self. rewrite Hbt.
    unfold is_special_model in Hn.
    destruct (String.eqb_spec (name bt) "ESP56_SHTW3_01"); [tauto|].
    destruct (String.eqb_spec (name bt) "ESP06_SHDW9_01"); [tauto|].
    destruct (String.eqb_spec (name bt) "ESP06_SHDW1_01"); [tauto|].
    destruct (String.eqb_spec (name bt) "ESP15_SHTW1_01I"); [tauto|].
    reflexivity.
  - intros bt Hbt Hlen.
    assert (Hall : forall keys, (forall k, In k keys -> 0 <= k <= 31) ->
              scenes_at (self w) keys w
              = (Ok (map (fun key => nth (Z.to_nat key) (_scenes (self w)) "") keys), w)).
    { intros keys Hk. apply scenes_at_in_bounds.
      intros k Hin. specialize (Hk k Hin). lia. }
    repeat split; intros Hnm; unfold effect_list, bind, get_self;
      rewrite Hbt, Hnm; cbn [String.eqb Ascii.eqb Bool.eqb];
      apply Hall; cbn; intros k Hk;
      repeat (destruct Hk as [<-|Hk]; [lia|]); destruct Hk.
Qed.

End SceneList.

Section Commands.
Context {ext : Externals}.

(** X11: a command never assigns to the entity: after a turn-on or a
    turn-off the cached on/off state and every other attribute are the ones
    before, whatever the device answers; the next poll cycle is what
    updates them.  A turn-on sends at most one command, a turn-off exactly
    one, and the answer of the client to the turn-off is its result. *)
Theorem commands_never_assign (r : Responses) (kwargs : Kwargs) (w : World) :
  self (snd (async_turn_on r kwargs w)) = self w /\
  (exists sent,
     calls_of (trace (snd (async_turn_on r kwargs w)))
     = calls_of (trace w) ++ sent /\ (List.length sent <= 1)%nat) /\
  async_turn_off r w
  = (r_turn_off r, {| self := self w; trace := trace w ++ [Call CallTurnOff] |}).
Proof.
  destruct (async_turn_on_run r kwargs w)
    as (Hself & [(_ & Hc & _)|(sid & pilot & _ & _ & _ & _ & Hc)]).
  - split; [exact Hself|]. split.
    + exists []. rewrite app_nil_r. split; [exact Hc|]. cbn. lia.
    + destruct w; unfold async_turn_off; unfold_monad; cbn.
      destruct (r_turn_off r); reflexivity.
  - split; [exact Hself|]. split.
    + eexists. split; [exact Hc|]. cbn. lia.
    + destruct w; unfold async_turn_off; unfold_monad; cbn.
      destruct (r_turn_off r); reflexivity.
Qed.



(** X13: when the scene lookup of a turn-on request raises (a name the
    client does not know), the request raises the same exception and no
    command reaches the device. *)
Theorem turn_on_unknown_scene_sends_nothing
    (r : Responses) (kwargs : Kwargs) (w : World) (nm : string) (e : exn) :
  (forall mired, ATTR_COLOR_TEMP kwargs = Some mired ->
     is_raise (color_temperature_mired_to_kelvin mired) = false) ->
  ATTR_EFFECT kwargs = Some nm ->
  get_id_from_scene_name nm = Raise e ->
  fst (async_turn_on r kwargs w) = Raise e /\
  calls_of (trace (snd (async_turn_on r kwargs w))) = calls_of (trace w) /\
  self (snd (async_turn_on r kwargs w)) = self w.
Proof.
  intros Hct Hnm Hid.
  destruct kwargs as [rgb hs br ct eff]; destruct w as [b tr];
    unfold async_turn_on; unfold_monad; cbn in *. subst eff.
  destruct ct as [m|]; cbn.
  - specialize (Hct m eq_refl).
    destruct (color_temperature_mired_to_kelvin m) as [k|e']; [|discriminate].
    cbn. rewrite Hid; cbn. rewrite calls_of_app; cbn. rewrite app_nil_r.
    repeat split.
  - rewrite Hid; cbn. repeat split.
Qed.

End Commands.

Section Features.
Context {ext : Externals}.

Ltac bitwise :=
  apply Z.bits_inj'; intros;
  repeat (rewrite Z.lor_spec || rewrite Z.land_spec || rewrite Z.bits_0);
  repeat match goal with
         | |- context [Z.testbit ?a ?i] => destruct (Z.testbit a i)
         end; reflexivity.

(** X14: with a cached descriptor whose feature flags can be read, the
    feature query returns, without logging, a value that adds nothing to the
    full feature set and that contains the bits of every flag that is set;
    with all four flags set it is the full feature set of the fallback,
    with none it is 0. *)
Theorem supported_features_from_flags (w : World) (bt : BulbType) (f : Features) :
  _bulbtype (self w) = Some bt ->
  features bt = Ok f ->
  exists v,
    supported_features w = (Ok v, w) /\
    Z.lor v SUPPORT_FEATURES_RGB = SUPPORT_FEATURES_RGB /\
    (brightness f = true -> Z.land v SUPPORT_BRIGHTNESS = SUPPORT_BRIGHTNESS) /\
    (color f = true -> Z.land v SUPPORT_COLOR = SUPPORT_COLOR) /\
    (effect f = true -> Z.land v SUPPORT_EFFECT = SUPPORT_EFFECT) /\
    (color_tmp f = true -> Z.land v SUPPORT_COLOR_TEMP = SUPPORT_COLOR_TEMP) /\
    (brightness f = true -> color f = true -> effect f = true ->
     color_tmp f = true -> v = SUPPORT_FEATURES_RGB) /\
    (brightness f = false -> color f = false -> effect f = false ->
     color_tmp f = false -> v = 0).
Proof.
  intros Hbt Hf. open_entity w cached. subst cached.
  unfold supported_features, featuremap; unfold_monad; cbn.
  repeat (rewrite Hf; cbn). eexists. split; [reflexivity|].
  unfold SUPPORT_FEATURES_RGB.
  destruct f as [[|] [|] [|] [|]]; cbn;
    repeat split; intros; try discriminate; try bitwise.
Qed.

End Features.

Section RefreshSteps.
Context {ext : Externals}.

(** X15: the colour step never raises once a full triple with a red channel
    is reported.  If the converter gives a colour it is stored and nothing
    is logged as an error; if it gives none, or raises (as on an absent
    green or blue channel), the cached HS colour is cleared and one error is
    logged.  Nothing but the HS colour is assigned. *)
Theorem update_color_by_converter
    (w : World) (p : PilotParser) (red : Z) (green blue : option Z) :
  state (_light (self w)) = Some p ->
  get_rgb p = Ok (Some (Some red, green, blue)) ->
  let w' := snd (update_color w) in
  fst (update_color w) = Ok tt /\
  match color_RGB_to_hs red green blue with
  | Ok (Some c) =>
      self w' = set_hscolor (Some c) (self w) /\
      errors_of (trace w') = errors_of (trace w)
  | Ok None =>
      self w' = set_hscolor None (self w) /\
      errors_of (trace w')
      = errors_of (trace w) ++ [Template "Received invalid HS color : %s"]
  | Raise _ =>
      self w' = set_hscolor None (self w) /\
      errors_of (trace w')
      = errors_of (trace w) ++ [Template "Cannot evaluate color"]
  end.
Proof.
  intros Hp Hrgb. open_entity w cached. subst.
  destruct p as [v ct rgb sc]; cbn in Hrgb; subst rgb.
  unfold update_color; unfold_monad; cbn.
  destruct (color_RGB_to_hs red green blue) as [[c|]|e]; cbn;
    rewrite ?errors_of_app; cbn; rewrite ?app_nil_r; repeat split.
Qed.

(** X16: when no brightness is reported, the brightness step changes
    nothing: cached brightness and on/off state stay and nothing is
    logged. *)
Theorem absent_brightness_changes_nothing (w : World) (p : PilotParser) :
  state (_light (self w)) = Some p ->
  get_brightness p = Ok PyNone ->
  update_brightness w = (Ok tt, w).
Proof.
  intros Hp Hb. open_entity w cached. subst.
  destruct p as [v ct rgb sc]; cbn in Hb; subst v. reflexivity.
Qed.

(** X17: a reported colour temperature other than 0 is stored as the value
    the kelvin-to-mired conversion gives for it; nothing else is assigned
    and nothing is logged as an error. *)
Theorem nonzero_colortemp_stored_converted
    (w : World) (p : PilotParser) (kelvin mired : Z) :
  state (_light (self w)) = Some p ->
  get_colortemp p = Ok (Some kelvin) ->
  kelvin <> 0 ->
  color_temperature_kelvin_to_mired kelvin = Ok mired ->
  let w' := snd (update_temperature w) in
  fst (update_temperature w) = Ok tt /\
  self w' = set_temperature (Some mired) (self w) /\
  errors_of (trace w') = errors_of (trace w).
Proof.
  intros Hp Hct Hk Hconv. open_entity w cached. subst.
  destruct p as [v ct rgb sc]; cbn in Hct; subst ct.
  unfold update_temperature; unfold_monad; cbn.
  apply Z.eqb_neq in Hk. rewrite Hk, Hconv; cbn.
  rewrite errors_of_app; cbn; rewrite app_nil_r. repeat split.
Qed.

(** X18: without a status object in the client handle every refresh step
    that reads it raises [AttributeError], and the refresh as a whole raises
    at its first step with nothing assigned. *)
Theorem refresh_without_status_raises (w : World) :
  state (_light (self w)) = None ->
  refresh_derived w = (Raise AttributeError, w) /\
  update_brightness w = (Raise AttributeError, w) /\
  update_temperature w = (Raise AttributeError, w) /\
  update_color w = (Raise AttributeError, w) /\
  update_effect w = (Raise AttributeError, w).
Proof.
  intros Hp. open_entity w cached. subst.
  unfold refresh_derived, update_brightness, update_temperature,
    update_color, update_effect; unfold_monad; cbn.
  repeat split.
Qed.

End RefreshSteps.

Section MetadataProperties.
Context {ext : Externals}.
Variable DOMAIN : string.

(** X19: [device_info] needs the capability descriptor.  After a poll cycle
    that started without a descriptor and whose fetches each answer or time
    out: if the descriptor fetch answered, [device_info] returns the model
    name of that descriptor, the identifier the cycle left cached and the
    fixed manufacturer string; if it timed out, [device_info] raises
    [AttributeError] and logs nothing. *)
Theorem device_info_after_poll (r : Responses) (w : World) :
  ok_or_timeout (r_updateState r) = true ->
  ok_or_timeout (r_get_bulbtype r) = true ->
  ok_or_timeout (r_getMac r) = true ->
  _bulbtype (self w) = None ->
  let w' := snd (async_update r w) in
  match r_get_bulbtype r with
  | Ok bt =>
      exists info,
        fst (device_info DOMAIN w') = Ok info /\
        model info = name bt /\
        identifiers info = [(DOMAIN, _mac (self w'))] /\
        info_name info = _name (self w') /\
        manufacturer info = "WiZ Light Platform"
  | Raise _ => device_info DOMAIN w' = (Raise AttributeError, w')
  end.
Proof.
  intros Hus Hbt Hmac Hnone.
  destruct (async_update_run r w Hus Hbt Hmac) as (_ & _ & Hb & _).
  cbn zeta in Hb |- *. rewrite Hnone in Hb.
  unfold device_info; unfold_monad.
  destruct (r_get_bulbtype r) as [bt|e]; cbn; rewrite Hb; cbn.
  - rewrite Hb; cbn. eexists. repeat split.
  - reflexivity.
Qed.

End MetadataProperties.

(** * Concrete runs of the further properties *)

Lemma poll_success_witness :
  let w := Demo.world_of (Demo.lit (Some Demo.reports_ok) None) in
  let b' := self (snd (async_update Demo.all_ok w)) in
  fst (async_update Demo.all_ok w) = Ok tt /\
  _available b' = Some true /\
  _state b' = Some true /\
  _brightness b' = Some 128 /\
  _effect b' = Some "Ocean" /\
  _scenes b' = map snd Demo.scene_table.
Proof.
  cbn zeta.
  apply (poll_success_refreshes_from_status Demo.all_ok
           (Demo.world_of (Demo.lit (Some Demo.reports_ok) None))
           Demo.reports_ok 128 (Some 2700) (Some (Some 255, Some 0, Some 0))
           (Some "Ocean") eq_refl eq_refl eq_refl eq_refl);
    [lia | reflexivity | reflexivity | reflexivity].
Defined.

Lemma poll_bulb_not_on_witness :
  let w := Demo.world_of (Demo.lit (Some Demo.reports_ok) None) in
  let b' := self (snd (async_update Demo.bulb_off w)) in
  _available b' = Some true /\
  _state b' = Some false /\
  _brightness b' = Some 100 /\
  _temperature b' = Some 370 /\
  _hscolor b' = Some (30, 80) /\
  _effect b' = Some "Cozy" /\
  _scenes b' = [].
Proof.
  cbn zeta.
  apply (poll_bulb_not_on_skips_refresh Demo.bulb_off
           (Demo.world_of (Demo.lit (Some Demo.reports_ok) None))
           Demo.reports_ok (Some false) eq_refl).
  discriminate.
Defined.

Lemma poll_status_failure_witness :
  let w := Demo.world_of (Demo.lit (Some Demo.reports_ok) None) in
  async_update Demo.connection_lost w
  = (Raise WizLightConnectionError,
     {| self := self w; trace := trace w ++ [Call CallUpdateState] |}).
Proof.
  cbn zeta.
  apply (poll_status_failure_changes_nothing Demo.connection_lost
           (Demo.world_of (Demo.lit (Some Demo.reports_ok) None))
           WizLightConnectionError eq_refl).
  discriminate.
Defined.

Lemma poll_descriptor_failure_witness :
  let w := Demo.world_of (Demo.lit (Some Demo.reports_ok) None) in
  let w' := snd (async_update Demo.unknown_model w) in
  fst (async_update Demo.unknown_model w) = Raise WizLightNotKnownBulb /\
  self w' = self (snd (update_state Demo.unknown_model w)) /\
  calls_of (trace w') = calls_of (trace w) ++ [CallUpdateState; CallGetBulbtype].
Proof.
  cbn zeta.
  apply (poll_descriptor_failure_aborts_cycle Demo.unknown_model
           (Demo.world_of (Demo.lit (Some Demo.reports_ok) None))
           WizLightNotKnownBulb eq_refl eq_refl eq_refl).
  discriminate.
Defined.

Lemma poll_raises_witness :
  (WizLightConnectionError <> WizLightTimeOutError /\
   (r_updateState Demo.connection_lost = Raise WizLightConnectionError
    \/ (_bulbtype (Demo.lit (Some Demo.reports_ok) None) = None
        /\ r_get_bulbtype Demo.connection_lost = Raise WizLightConnectionError)
    \/ r_getMac Demo.connection_lost = Raise WizLightConnectionError))
  \/ (exists p,
        r_updateState Demo.connection_lost = Ok (Some p, Some true) /\
        (get_brightness p = Raise WizLightConnectionError
         \/ get_colortemp p = Raise WizLightConnectionError
         \/ get_rgb p = Raise WizLightConnectionError
         \/ get_scene p = Raise WizLightConnectionError)).
Proof.
  apply (poll_raises_only_what_a_client_call_raised Demo.connection_lost
           (Demo.world_of (Demo.lit (Some Demo.reports_ok) None))
           WizLightConnectionError eq_refl).
Defined.

Lemma brightness_in_range_witness :
  let w := Demo.world_of (Demo.lit (Some Demo.reports_ok) None) in
  brightness_in_range (self (snd (async_update Demo.all_ok w))) /\
  brightness_in_range
    (self (snd (async_turn_on Demo.all_ok (Demo.request None None None) w))) /\
  brightness_in_range (self (snd (async_turn_off Demo.all_ok w))).
Proof.
  cbn zeta.
  apply (brightness_in_range_preserved Demo.all_ok (Demo.request None None None)
           (Demo.world_of (Demo.lit (Some Demo.reports_ok) None))).
  unfold brightness_in_range; cbn. lia.
Defined.

Lemma unavailable_is_off_witness :
  let w := Demo.world_of (WizBulb_init (Demo.handle None) "desk") in
  unavailable_is_off (self (snd (async_update Demo.all_timeout w))) /\
  unavailable_is_off
    (self (snd (async_turn_on Demo.all_timeout (Demo.request None None None) w))) /\
  unavailable_is_off (self (snd (async_turn_off Demo.all_timeout w))).
Proof.
  cbn zeta.
  apply (unavailable_is_off_preserved Demo.all_timeout
           (Demo.request None None None)
           (Demo.world_of (WizBulb_init (Demo.handle None) "desk"))).
  unfold unavailable_is_off; cbn. discriminate.
Defined.

Lemma effect_list_special_model_witness :
  let w := Demo.world_of (Demo.lit (Some Demo.reports_ok) (Some Demo.filament_bulb)) in
  effect_list w = (Raise IndexError, w).
Proof.
  cbn zeta.
  apply (effect_list_special_model_needs_32_scenes
           (Demo.world_of (Demo.lit (Some Demo.reports_ok) (Some Demo.filament_bulb)))
           Demo.filament_bulb eq_refl).
  - left; reflexivity.
  - cbn. lia.
Defined.


Lemma turn_on_unknown_scene_witness :
  let w := Demo.world_of (Demo.lit (Some Demo.reports_ok) None) in
  let kwargs := Demo.request None None (Some "Disco") in
  fst (async_turn_on Demo.all_ok kwargs w) = Raise ValueError /\
  calls_of (trace (snd (async_turn_on Demo.all_ok kwargs w))) = calls_of (trace w) /\
  self (snd (async_turn_on Demo.all_ok kwargs w)) = self w.
Proof.
  cbn zeta.
  apply (turn_on_unknown_scene_sends_nothing Demo.all_ok
           (Demo.request None None (Some "Disco"))
           (Demo.world_of (Demo.lit (Some Demo.reports_ok) None))
           "Disco" ValueError).
  - intros mired H. injection H as <-. reflexivity.
  - reflexivity.
  - reflexivity.
Defined.

Lemma supported_features_witness :
  let w := Demo.world_of (Demo.lit (Some Demo.reports_ok) (Some Demo.known_bulb)) in
  exists v, supported_features w = (Ok v, w) /\ v = 23.
Proof.
  cbn zeta.
  destruct (supported_features_from_flags
              (Demo.world_of (Demo.lit (Some Demo.reports_ok) (Some Demo.known_bulb)))
              Demo.known_bulb Demo.features_all eq_refl eq_refl)
    as (v & Hv & _ & _ & _ & _ & _ & Hall & _).
  exists v. split; [exact Hv|].
  exact (Hall eq_refl eq_refl eq_refl eq_refl).
Defined.

Lemma update_color_witness :
  let w := Demo.world_of (Demo.lit (Some Demo.reports_ok) None) in
  fst (update_color w) = Ok tt /\
  self (snd (update_color w))
  = @set_hscolor Demo.platform (Some (255, 0)) (self w) /\
  errors_of (trace (snd (update_color w))) = errors_of (trace w).
Proof.
  cbn zeta.
  apply (update_color_by_converter
           (Demo.world_of (Demo.lit (Some Demo.reports_ok) None))
           Demo.reports_ok 255 (Some 0) (Some 0) eq_refl eq_refl).
Defined.

Lemma absent_brightness_witness :
  let w := Demo.world_of (Demo.lit (Some (Demo.status_of PyNone None None)) None) in
  update_brightness w = (Ok tt, w).
Proof.
  cbn zeta.
  apply (absent_brightness_changes_nothing
           (Demo.world_of (Demo.lit (Some (Demo.status_of PyNone None None)) None))
           (Demo.status_of PyNone None None) eq_refl eq_refl).
Defined.

Lemma nonzero_colortemp_witness :
  let w := Demo.world_of (Demo.lit (Some Demo.reports_ok) None) in
  fst (update_temperature w) = Ok tt /\
  self (snd (update_temperature w)) = set_temperature (Some 370) (self w) /\
  errors_of (trace (snd (update_temperature w))) = errors_of (trace w).
Proof.
  cbn zeta.
  apply (nonzero_colortemp_stored_converted
           (Demo.world_of (Demo.lit (Some Demo.reports_ok) None))
           Demo.reports_ok 2700 370 eq_refl eq_refl).
  - lia.
  - reflexivity.
Defined.

Lemma refresh_without_status_witness :
  let w := Demo.world_of (WizBulb_init (Demo.handle None) "desk") in
  refresh_derived w = (Raise AttributeError, w) /\
  update_brightness w = (Raise AttributeError, w) /\
  update_temperature w = (Raise AttributeError, w) /\
  update_color w = (Raise AttributeError, w) /\
  update_effect w = (Raise AttributeError, w).
Proof.
  cbn zeta.
  apply (refresh_without_status_raises
           (Demo.world_of (WizBulb_init (Demo.handle None) "desk")) eq_refl).
Defined.

Lemma device_info_witness :
  let w := Demo.world_of (Demo.lit (Some Demo.reports_ok) None) in
  let w' := snd (async_update Demo.fetches_timeout w) in
  device_info "wiz_light" w' = (Raise AttributeError, w').
Proof.
  cbn zeta.
  apply (device_info_after_poll "wiz_light" Demo.fetches_timeout
           (Demo.world_of (Demo.lit (Some Demo.reports_ok) None))
           eq_refl eq_refl eq_refl eq_refl).
Defined.


Lemma descriptor_fetched_witness :
  let w := Demo.world_of (Demo.lit (Some Demo.reports_ok) None) in
  let w' := snd (async_update Demo.fetches_timeout w) in
  let w'' := snd (async_update Demo.all_ok w') in
  _bulbtype (self w') = None /\
  calls_of (trace w'')
  = calls_of (trace w') ++ [CallUpdateState; CallGetBulbtype; CallGetMac].
Proof.
  cbn zeta.
  destruct (descriptor_fetched_only_when_absent
              Demo.fetches_timeout Demo.all_ok
              (Demo.world_of (Demo.lit (Some Demo.reports_ok) None))
              eq_refl eq_refl eq_refl eq_refl eq_refl eq_refl)
    as (_ & _ & _ & H).
  exact (H eq_refl eq_refl).
Defined.

Lemma poll_getter_failure_witness :
  let w := Demo.world_of (Demo.lit (Some Demo.reports_ok) None) in
  let b' := self (snd (async_update Demo.no_scene w)) in
  fst (async_update Demo.no_scene w) = Raise KeyError /\
  _available b' = Some true /\
  _brightness b' = Some 128 /\
  _effect b' = Some "Cozy" /\
  _scenes b' = [].
Proof.
  cbn zeta.
  destruct (poll_getter_failure_aborts_refresh Demo.no_scene
              (Demo.world_of (Demo.lit (Some Demo.reports_ok) None))
              Demo.reports_no_scene KeyError eq_refl eq_refl eq_refl)
    as (Hav & _ & Hscene).
  destruct (Hscene _ _ _ eq_refl eq_refl eq_refl eq_refl)
    as (Hres & Hb & _ & _ & He & Hs).
  split; [exact Hres|]. split; [exact Hav|].
  split; [exact Hb|]. split; [exact He|exact Hs].
Defined.
